(** * gemini-api-alert: a shallow embedding of [app.py]

    The program polls a market-data provider and raises threshold alerts on
    price deviation (z-score), price change and volume deviation.

    Modelling conventions.
    - Python floats are modelled as real numbers ([R]): arithmetic is exact;
      rounding, overflow, infinities and NaN are outside the model.
    - Decoded JSON documents and the floats computed from them live in one
      universe of Python values, [val].
    - A Python function is a computation in a state-and-exception monad
      [M St A]; the state of the program is the [world]: the sequence of
      calls made to the module logger, the number of HTTP requests sent so
      far and the configured log level.
    - The provider and the builtin [float] on strings are the environment:
      they are variables of the section that holds the program. *)

From Stdlib Require Import Reals Lra List String Ascii ZArith Bool Lia.
Import ListNotations.
Open Scope string_scope.
Open Scope list_scope.
Open Scope R_scope.

Set Implicit Arguments.
Set Warnings "-register-all".

(** ** Python values *)

(** What [json.loads] can return; a float is a [VNum]. A dict is kept as the
    list of its items in insertion order. *)
Inductive val : Type :=
| VNone
| VBool (b : bool)
| VNum (r : R)
| VStr (s : string)
| VList (l : list val)
| VDict (items : list (string * val)).

(** The exception classes the program can meet. All of them derive from
    [Exception]. *)
Inductive exn : Type :=
| ValueError
| TypeError
| AttributeError
| IndexError
| KeyError
| ZeroDivisionError
| UnboundLocalError
| StatisticsError
| RequestException
| JSONDecodeError.

Inductive result (A : Type) : Type :=
| Ok (a : A)
| Raise (e : exn).
Arguments Raise {A} e.

Definition rbind {A B} (r : result A) (k : A -> result B) : result B :=
  match r with
  | Ok a => k a
  | Raise e => Raise e
  end.

(** An f-string keeps its literal pieces and the values substituted in it. *)
Inductive piece : Type :=
| Lit (s : string)
| Sub (v : val).

Definition text := list piece.

(** What [requests.get] returns: whether the status is a success, and the
    decoded body ([None] when the body is not JSON). *)
Record response : Type := { status_ok : bool; body : option val }.

(** ** The logger *)

Inductive logcall : Type := LDebug | LInfo | LError | LException.

Inductive logarg : Type :=
| AVal (v : val)
| AText (t : text)
| AExn (e : exn)
| AResp (r : response).

Record logrec : Type := { call : logcall; fmt : string; args : list logarg }.

Definition levelno (c : logcall) : Z :=
  match c with
  | LDebug => 10
  | LInfo => 20
  | LError => 40
  | LException => 40
  end%Z.

Record world : Type := { trace : list logrec; nreq : nat; loglevel : Z }.

(** ** The monad *)

Definition M (St A : Type) : Type := St -> result A * St.

Definition ret {St A} (a : A) : M St A := fun s => (Ok a, s).

Definition bind {St A B} (m : M St A) (k : A -> M St B) : M St B :=
  fun s =>
    match m s with
    | (Ok a, s') => k a s'
    | (Raise e, s') => (Raise e, s')
    end.

Definition raise {St A} (e : exn) : M St A := fun s => (Raise e, s).

Definition lift {St A} (r : result A) : M St A := fun s => (r, s).

(** [try: body / except cls as ex: handler ex], where [cls] tells which
    exceptions the clause catches. *)
Definition try_except {St A} (body : M St A) (cls : exn -> bool)
    (handler : exn -> M St A) : M St A :=
  fun s =>
    match body s with
    | (Ok a, s') => (Ok a, s')
    | (Raise e, s') => if cls e then handler e s' else (Raise e, s')
    end.

Declare Scope py_scope.
Delimit Scope py_scope with py.
Notation "x <- m ;; k" := (bind m (fun x => k))
  (at level 61, m at next level, right associativity) : py_scope.
Notation "m ;; k" := (bind m (fun _ => k))
  (at level 61, right associativity) : py_scope.
Open Scope py_scope.

(** [except Exception]. *)
Definition Exception (e : exn) : bool := true.

(** [except requests.exceptions.RequestException]. *)
Definition is_RequestException (e : exn) : bool :=
  match e with
  | RequestException => true
  | _ => false
  end.

(** Local variables of a function that may be read before they are bound are
    kept in a frame [L] next to the world. *)
Definition zoom {L A} (m : M world A) : M (world * L) A :=
  fun s =>
    let '(r, w') := m (fst s) in (r, (w', snd s)).

Definition with_frame {L A} (l0 : L) (m : M (world * L) A) : M world A :=
  fun w =>
    let '(r, s') := m (w, l0) in (r, fst s').

Definition store {L} (upd : L -> L) : M (world * L) unit :=
  fun s => (Ok tt, (fst s, upd (snd s))).

(** Reading a local that no assignment has reached. *)
Definition load {L A} (get : L -> option A) : M (world * L) A :=
  fun s =>
    match get (snd s) with
    | Some a => (Ok a, s)
    | None => (Raise UnboundLocalError, s)
    end.

Definition log (c : logcall) (f : string) (a : list logarg) : M world unit :=
  fun w =>
    (Ok tt,
     {| trace := trace w ++ [{| call := c; fmt := f; args := a |}];
        nreq := nreq w;
        loglevel := loglevel w |}).

(** ** Python operations on values *)

Definition Rnonzero (r : R) : bool := if Req_dec_T r 0 then false else true.

Definition Rgtb (a b : R) : bool := if Rgt_dec a b then true else false.

Definition Rltb (a b : R) : bool := if Rlt_dec a b then true else false.

Definition nonempty_string (s : string) : bool :=
  match s with
  | EmptyString => false
  | String _ _ => true
  end.

(** Truth value of an object in a condition. *)
Definition truthy (v : val) : bool :=
  match v with
  | VNone => false
  | VBool b => b
  | VNum r => Rnonzero r
  | VStr s => nonempty_string s
  | VList l => match l with [] => false | _ :: _ => true end
  | VDict d => match d with [] => false | _ :: _ => true end
  end.

Fixpoint lookup (k : string) (d : list (string * val)) : option val :=
  match d with
  | [] => None
  | (k', v) :: d' => if String.eqb k k' then Some v else lookup k d'
  end.

(** [obj.get(key)]: only a dict has the method. *)
Definition py_get (obj : val) (key : string) : result val :=
  match obj with
  | VDict d => Ok match lookup key d with Some v => v | None => VNone end
  | _ => Raise AttributeError
  end.

(** [obj[key]] with a string key. *)
Definition py_subscript (obj : val) (key : string) : result val :=
  match obj with
  | VDict d => match lookup key d with Some v => Ok v | None => Raise KeyError end
  | _ => Raise TypeError
  end.

Definition py_len (obj : val) : result Z :=
  match obj with
  | VStr s => Ok (Z.of_nat (String.length s))
  | VList l => Ok (Z.of_nat (List.length l))
  | VDict d => Ok (Z.of_nat (List.length d))
  | _ => Raise TypeError
  end.

Definition chars (s : string) : list val :=
  map (fun c => VStr (String c EmptyString)) (list_ascii_of_string s).

(** Position of index [i] in a sequence of [n] elements: a negative index
    counts from the end. *)
Definition position (i : Z) (n : nat) : option nat :=
  let j := if (i <? 0)%Z then (i + Z.of_nat n)%Z else i in
  if ((0 <=? j) && (j <? Z.of_nat n))%Z%bool then Some (Z.to_nat j) else None.

Definition index_seq (l : list val) (i : Z) : result val :=
  match position i (List.length l) with
  | Some j => match nth_error l j with Some v => Ok v | None => Raise IndexError end
  | None => Raise IndexError
  end.

(** [obj[i]] with an integer index. A decoded JSON object has string keys
    only, so an integer is never one of them. *)
Definition py_getitem (obj : val) (i : Z) : result val :=
  match obj with
  | VList l => index_seq l i
  | VStr s => index_seq (chars s) i
  | VDict _ => Raise KeyError
  | _ => Raise TypeError
  end.

(** [obj[0:24]]. *)
Definition py_slice_0_24 (obj : val) : result val :=
  match obj with
  | VList l => Ok (VList (firstn 24 l))
  | VStr s => Ok (VStr (substring 0 24 s))
  | _ => Raise TypeError
  end.

(** The elements a [for] loop or a comprehension goes through. *)
Definition py_iter (obj : val) : result (list val) :=
  match obj with
  | VList l => Ok l
  | VStr s => Ok (chars s)
  | VDict d => Ok (map (fun kv => VStr (fst kv)) d)
  | _ => Raise TypeError
  end.

(** A value used as a number in arithmetic: [bool] is a subclass of [int]. *)
Definition py_num (v : val) : result R :=
  match v with
  | VNum r => Ok r
  | VBool b => Ok (if b then 1 else 0)
  | _ => Raise TypeError
  end.

Definition py_sub (a b : val) : result R :=
  rbind (py_num a) (fun x => rbind (py_num b) (fun y => Ok (x - y))).

Definition py_truediv (a b : R) : result R :=
  if Rnonzero b then Ok (a / b) else Raise ZeroDivisionError.

Fixpoint mapM {A B} (f : A -> result B) (l : list A) : result (list B) :=
  match l with
  | [] => Ok []
  | a :: l' => rbind (f a) (fun b => rbind (mapM f l') (fun bs => Ok (b :: bs)))
  end.

Definition Rsum (l : list R) : R := fold_right Rplus 0 l.

(** [math.fsum], which the [statistics] module re-exports: the exactly
    rounded sum of an iterable of numbers. *)
Definition fsum (l : list val) : result R :=
  rbind (mapM py_num l) (fun xs => Ok (Rsum xs)).

(** [statistics.mean] and [statistics.stdev] on a list of floats: the
    arithmetic mean, and the square root of the sample variance. *)
Definition stats_mean (data : list R) : result R :=
  match data with
  | [] => Raise StatisticsError
  | _ :: _ => Ok (Rsum data / INR (List.length data))
  end.

Definition sum_sq_dev (c : R) (data : list R) : R :=
  Rsum (map (fun x => (x - c) * (x - c)) data).

Definition stats_variance (data : list R) : result R :=
  match data with
  | [] | [_] => Raise StatisticsError
  | _ :: _ :: _ =>
      let c := Rsum data / INR (List.length data) in
      Ok (sum_sq_dev c data / INR (List.length data - 1))
  end.

Definition stats_stdev (data : list R) : result R :=
  rbind (stats_variance data) (fun v => Ok (sqrt v)).

(** ** The program *)

Definition GEMINI_API_BASE_URL : string := "https://api.gemini.com".
Definition API_VERSION : string := "v2".
Definition DEBUG : Z := 10.
Definition INFO : Z := 20.

(** In the formats and f-strings that the source breaks over several lines,
    the line break and the indentation that follows it are written as one
    space. *)

Record zlocals : Type :=
  { zscore : option R; sample_mean : option R; sample_stdev : option R }.

Definition no_zlocals : zlocals :=
  {| zscore := None; sample_mean := None; sample_stdev := None |}.

Definition set_sample_stdev (x : R) (l : zlocals) : zlocals :=
  {| zscore := zscore l; sample_mean := sample_mean l; sample_stdev := Some x |}.

Definition set_sample_mean (x : R) (l : zlocals) : zlocals :=
  {| zscore := zscore l; sample_mean := Some x; sample_stdev := sample_stdev l |}.

Definition set_zscore (x : R) (l : zlocals) : zlocals :=
  {| zscore := Some x; sample_mean := sample_mean l; sample_stdev := sample_stdev l |}.

Definition setup_logging (debug : val) : M world unit :=
  fun w =>
    let loglevel0 := INFO in
    let loglevel1 := if truthy debug then DEBUG else loglevel0 in
    (Ok tt, {| trace := trace w; nreq := nreq w; loglevel := loglevel1 |}).

Definition calculate_percentage_change (final initial : val) : M world R :=
  log LInfo "Calculate percentage change between final and inital value." [] ;;
  if truthy final && truthy initial then
    d <- lift (py_sub final initial) ;;
    i <- lift (py_num initial) ;;
    q <- lift (py_truediv d i) ;;
    ret (q * 100)
  else
    log LException "Missing values for final and intial." [] ;;
    raise ValueError.

Definition calculate_zscore (past_values : list R) (current_price : R)
    : M world (R * R * R) :=
  with_frame no_zlocals
    (try_except
       (zoom (log LInfo
          "Calculate the Zscore to get # of std deviations current price is from mean."
          []) ;;
        sd <- lift (stats_stdev past_values) ;;
        store (set_sample_stdev sd) ;;
        zoom (log LDebug "Past data stdev: %s" [AVal (VNum sd)]) ;;
        m <- lift (stats_mean past_values) ;;
        store (set_sample_mean m) ;;
        z <- lift (py_truediv (current_price - m) sd) ;;
        store (set_zscore z) ;;
        zoom (log LDebug "zscore of sample data: %s" [AVal (VNum z)]))
       Exception
       (fun ex =>
          zoom (log LException "Failed to calculate standard deviation: %s" [AExn ex])) ;;
     z <- load zscore ;;
     m <- load sample_mean ;;
     sd <- load sample_stdev ;;
     ret (z, m, sd)).

Definition get_candles_url (symbol time_range : string) : string :=
  (GEMINI_API_BASE_URL ++ "/" ++ API_VERSION ++ "/candles/" ++ symbol ++ "/"
     ++ time_range)%string.

Definition get_tickerv2_url (symbol : string) : M world string :=
  log LInfo "Get Gemini API tickerv2 endpoint." [] ;;
  ret (GEMINI_API_BASE_URL ++ "/" ++ API_VERSION ++ "/ticker/" ++ symbol)%string.

Definition get_current_volume_1m_interval (response : val) : M world val :=
  let missing :=
    log LException "response cannot be empty" [] ;;
    raise ValueError in
  if truthy response then
    past_1m <- lift (py_getitem response 0) ;;
    if truthy past_1m then
      n <- lift (py_len past_1m) ;;
      lift (py_getitem past_1m (n - 1))
    else missing
  else missing.

Definition get_total_volume_past_24_hours (response : val) : M world R :=
  let missing :=
    log LException "response cannot be empty" [] ;;
    raise ValueError in
  if truthy response then
    past_24hours <- lift (py_slice_0_24 response) ;;
    log LDebug "Past 24 hours volume: %s" [AVal past_24hours] ;;
    if truthy past_24hours then
      hours <- lift (py_iter past_24hours) ;;
      results <- lift (mapM (fun hour =>
                   rbind (py_len hour) (fun n => py_getitem hour (n - 1))) hours) ;;
      lift (fsum results)
    else missing
  else missing.

Definition truthy_text (t : text) : bool :=
  existsb (fun p =>
             match p with
             | Lit s => nonempty_string s
             | Sub (VStr s) => nonempty_string s
             | Sub _ => true
             end) t.

Definition send_alert (alert_type : string) (message : text) : M world unit :=
  log LInfo "Sending alert." [] ;;
  if nonempty_string alert_type && truthy_text message then
    log LError "ALERT TRIGGERED: %s, Message: %s"
      [AVal (VStr alert_type); AText message]
  else
    log LException "Invalid parameters alert_type, messsage" [] ;;
    raise ValueError.

Definition send_info (alert_type : string) (message : text) : M world unit :=
  log LInfo "Sending info." [] ;;
  if nonempty_string alert_type && truthy_text message then
    log LInfo "OK: %s, Message: %s" [AVal (VStr alert_type); AText message]
  else
    log LException "Invalid parameters alert_type, messsage" [] ;;
    raise ValueError.

Section Program.

(** The environment: [float_of_string s] is what the builtin [float] makes
    of the string [s] ([None] when it raises [ValueError]), and [http n url]
    is how the provider answers the request number [n] when it is a GET of
    [url] ([None] when [requests.get] raises). *)
Variable float_of_string : string -> option R.
Variable http : nat -> string -> option response.

Definition py_float (v : val) : result R :=
  match v with
  | VNum r => Ok r
  | VBool b => Ok (if b then 1 else 0)
  | VStr s => match float_of_string s with Some r => Ok r | None => Raise ValueError end
  | _ => Raise TypeError
  end.

Definition requests_get (url : string) : M world response :=
  fun w =>
    let w' := {| trace := trace w; nreq := S (nreq w); loglevel := loglevel w |} in
    match http (nreq w) url with
    | Some r => (Ok r, w')
    | None => (Raise RequestException, w')
    end.

Definition raise_for_status (r : response) : M world unit :=
  if status_ok r then ret tt else raise RequestException.

Definition response_json (r : response) : result val :=
  match body r with
  | Some v => Ok v
  | None => Raise JSONDecodeError
  end.

Definition send_request (url : string) : M world response :=
  with_frame (None : option response)
    (try_except
       (zoom (log LInfo "Sending request to endpoint: %s." [AVal (VStr url)]) ;;
        r <- zoom (requests_get url) ;;
        store (fun _ => Some r) ;;
        zoom (log LDebug "Response from api: %s" [AResp r]) ;;
        zoom (raise_for_status r))
       is_RequestException
       (fun request_exception =>
          zoom (log LException "Requests exception: %s" [AExn request_exception])) ;;
     load (fun l => l)).

Definition get_current_price (response : val) : M world R :=
  log LInfo "Get current price from API json response." [] ;;
  c <- lift (py_get response "close") ;;
  if truthy c then
    v <- lift (py_subscript response "close") ;;
    lift (py_float v)
  else
    log LException "Current price cannot be None." [] ;;
    raise ValueError.

Definition get_open_price (response : val) : M world R :=
  log LInfo "Get open price from API json response." [] ;;
  c <- lift (py_get response "open") ;;
  if truthy c then
    v <- lift (py_subscript response "open") ;;
    lift (py_float v)
  else
    log LException "Open price cannot be None." [] ;;
    raise ValueError.

Definition get_hourly_past_24_hours (response : val) : M world (list R) :=
  prices_str <- lift (py_get response "changes") ;;
  xs <- lift (py_iter prices_str) ;;
  lift (mapM py_float xs).

(** [get_price_deviation], lines 158-165 of the [try] block: the ticker is
    fetched and the z-score of the current price computed. *)
Definition get_price_deviation_zscore (url symbol : string)
    : M world (R * R * R * R) :=
  log LInfo "Get price deviation for %s." [AVal (VStr symbol)] ;;
  response <- send_request url ;;
  response_json <- lift (response_json response) ;;
  log LDebug "Response json content: %s" [AVal response_json] ;;
  current_price <- get_current_price response_json ;;
  past_prices <- get_hourly_past_24_hours response_json ;;
  log LDebug "Current price: %s, past 24 hour prices: %s"
    [AVal (VNum current_price); AVal (VList (map VNum past_prices))] ;;
  zms <- calculate_zscore past_prices current_price ;;
  let '(zscore, sample_mean, sample_stdev) := zms in
  ret (current_price, zscore, sample_mean, sample_stdev).

(** Lines 166-175: the z-score is compared with the sigma threshold. *)
Definition get_price_deviation_classify
    (current_price zscore sample_mean sample_stdev stdev : R) : M world unit :=
  if Rgtb zscore stdev then
    log LError "Current price: %s is %s standard deviations above the mean: %s"
      [AVal (VNum current_price); AVal (VNum zscore); AVal (VNum sample_mean)]
  else if Rltb zscore (stdev * -1.00) then
    log LError "Current price: %s is %s standard deviations below the mean: %s"
      [AVal (VNum current_price); AVal (VNum zscore); AVal (VNum sample_mean)]
  else
    log LInfo
      "Current price (%s) is within 1 standard deivation (%s) from the sample mean (%s)."
      [AVal (VNum current_price); AVal (VNum sample_stdev); AVal (VNum sample_mean)].

Definition get_price_deviation (symbol : string) (stdev : R) : M world unit :=
  url <- get_tickerv2_url symbol ;;
  try_except
    (x <- get_price_deviation_zscore url symbol ;;
     let '(current_price, zscore, sample_mean, sample_stdev) := x in
     get_price_deviation_classify current_price zscore sample_mean sample_stdev stdev)
    Exception
    (fun ex =>
       log LException "Failed to get price deviation for: %s, message: %s"
         [AVal (VStr symbol); AExn ex]).

(** [get_price_change], lines 186-195 of the [try] block: the ticker is
    fetched and the change from the open price to the current one computed. *)
Definition get_price_change_percent (symbol : string) : M world (R * R * R) :=
  log LInfo "Get price change between open and current for %s."
    [AVal (VStr symbol)] ;;
  url <- get_tickerv2_url symbol ;;
  response <- send_request url ;;
  response_json <- lift (response_json response) ;;
  log LDebug "Get price change response json: %s" [AVal response_json] ;;
  current_price <- get_current_price response_json ;;
  open_price <- get_open_price response_json ;;
  percent_change <- calculate_percentage_change (VNum current_price) (VNum open_price) ;;
  ret (current_price, open_price, percent_change).

(** The two f-strings of lines 198-200 and 203-205. *)
Definition price_change_alert_message
    (percent_change current_price open_price threshold : R) : text :=
  [Lit "Percentage change "; Sub (VNum percent_change);
   Lit " between current price "; Sub (VNum current_price);
   Lit " and open price "; Sub (VNum open_price);
   Lit " is greater or equal to threshold of "; Sub (VNum threshold); Lit "."].

Definition price_change_info_message
    (percent_change current_price open_price threshold : R) : text :=
  [Lit "Percentage change "; Sub (VNum percent_change);
   Lit " between current price "; Sub (VNum current_price);
   Lit " and open price "; Sub (VNum open_price);
   Lit " is less than threshold of "; Sub (VNum threshold); Lit "."].

(** Lines 196-205: the magnitude of the change is compared with the
    threshold. *)
Definition get_price_change_classify
    (current_price open_price percent_change threshold : R) : M world unit :=
  if Rgtb (Rabs percent_change) threshold then
    send_alert "pricechange"
      (price_change_alert_message percent_change current_price open_price threshold)
  else
    send_info "pricechange"
      (price_change_info_message percent_change current_price open_price threshold).

Definition get_price_change (symbol : string) (threshold : R) : M world unit :=
  try_except
    (x <- get_price_change_percent symbol ;;
     let '(current_price, open_price, percent_change) := x in
     get_price_change_classify current_price open_price percent_change threshold)
    Exception
    (fun ex =>
       log LException "Failed to get price change for: %s, message: %s"
         [AVal (VStr symbol); AExn ex]).

(** [get_volume_deviation], lines 219-231 of the [try] block: both candle
    series are fetched and the change from the 24-hour volume to the volume
    of the last minute computed. *)
Definition get_volume_deviation_percent (symbol : string) : M world (val * R * R) :=
  let moving_24hr_sum_url := get_candles_url symbol "1hr" in
  let current_url := get_candles_url symbol "1m" in
  response <- send_request moving_24hr_sum_url ;;
  response_json1 <- lift (response_json response) ;;
  total_24hr_volume <- get_total_volume_past_24_hours response_json1 ;;
  response <- send_request current_url ;;
  response_json2 <- lift (response_json response) ;;
  current_volume <- get_current_volume_1m_interval response_json2 ;;
  percent_change <- calculate_percentage_change current_volume (VNum total_24hr_volume) ;;
  ret (current_volume, total_24hr_volume, percent_change).

(** The f-string of lines 232-234. *)
Definition volume_deviation_message (percent_change : R) (current_volume : val)
    (total_24hr_volume threshold : R) : text :=
  [Lit "Percentage change "; Sub (VNum percent_change);
   Lit " between current volume "; Sub current_volume;
   Lit " and past 24hour total volume "; Sub (VNum total_24hr_volume);
   Lit " threshold of "; Sub (VNum threshold); Lit "."].

(** Lines 232-239: the change itself, not its magnitude, is compared with
    the threshold. *)
Definition get_volume_deviation_classify
    (current_volume : val) (total_24hr_volume percent_change threshold : R)
    : M world unit :=
  let message :=
    volume_deviation_message percent_change current_volume total_24hr_volume
      threshold in
  if Rgtb percent_change threshold then
    send_alert "voldev" message
  else
    send_info "voldev" message.

Definition get_volume_deviation (symbol : string) (threshold : R) : M world unit :=
  try_except
    (x <- get_volume_deviation_percent symbol ;;
     let '(current_volume, total_24hr_volume, percent_change) := x in
     get_volume_deviation_classify current_volume total_24hr_volume percent_change
       threshold)
    Exception
    (fun ex => log LException "Failed to get volume deviation" []).

Definition main (currency : val) (alert_type : string) (deviation : R)
    (symbol : string) (debug : val) : M world unit :=
  setup_logging debug ;;
  log LDebug "Currency: %s, type: %s, deviation: %s"
    [AVal currency; AVal (VStr alert_type); AVal (VNum deviation)] ;;
  let deviation := deviation * 100 in
  if String.eqb alert_type "pricedev" then
    get_price_deviation symbol 1.0
  else if String.eqb alert_type "pricechange" then
    get_price_change symbol deviation
  else if String.eqb alert_type "voldev" then
    get_volume_deviation symbol deviation
  else if String.eqb alert_type "all" then
    get_price_deviation symbol 1.0 ;;
    get_price_change symbol deviation ;;
    get_volume_deviation symbol deviation
  else
    log LException
      "Invalid alert type value, must be pricedev, pricechange, voldev, or all." [].

(** ** Observations and reference definitions *)

(** The world after the records [l] have been logged. *)
Definition logged (w : world) (l : list logrec) : world :=
  {| trace := trace w ++ l; nreq := nreq w; loglevel := loglevel w |}.

Definition entry (c : logcall) (f : string) (a : list logarg) : logrec :=
  {| call := c; fmt := f; args := a |}.

(** The records that reach the output: the calls whose level is not below
    the level that [setup_logging] has configured. *)
Definition emitted (w : world) : list logrec :=
  filter (fun r => (loglevel w <=? levelno (call r))%Z) (trace w).

(** The sample mean and the Bessel-corrected sample standard deviation, as
    the specification words them: the sum over the number of values, and the
    square root of the sum of squared deviations from the mean over [n - 1]. *)
Definition sample_mean_spec (l : list R) : R := Rsum l / INR (List.length l).

Definition bessel_stdev_spec (l : list R) : R :=
  sqrt (Rsum (map (fun x => Rsqr (x - sample_mean_spec l)) l)
        / (INR (List.length l) - 1)).

Definition zscore_info : logrec :=
  entry LInfo "Calculate the Zscore to get # of std deviations current price is from mean."
    [].

(** The world in which the program starts: nothing logged, no request sent,
    the root logger at its default level [WARNING]. *)
Definition world0 : world := {| trace := []; nreq := 0; loglevel := 30 |}.


(** A candle row as the provider sends it: some fields, then the volume. *)
Definition candle_row (r : list val * R) : val := VList (fst r ++ [VNum (snd r)]).

Inductive Classification : Type := Alert | Info.

(** What the sink emits: the record of [send_alert], at level [ERROR], is an
    alert event, and the record of [send_info], at level [INFO], is an
    informational event. An event carries the arguments of its record: the
    kind of analysis and the message. *)
Definition sink_event (r : logrec) : option (Classification * list logarg) :=
  match call r with
  | LError =>
      if String.eqb (fmt r) "ALERT TRIGGERED: %s, Message: %s"
      then Some (Alert, args r) else None
  | LInfo =>
      if String.eqb (fmt r) "OK: %s, Message: %s"
      then Some (Info, args r) else None
  | _ => None
  end.

Definition sink_events (l : list logrec) : list (Classification * list logarg) :=
  flat_map (fun r => match sink_event r with Some e => [e] | None => [] end) l.

(** The price-deviation analysis reports its verdict to the logger itself:
    "above the mean" and "below the mean" at level [ERROR], "within" at
    level [INFO]. *)
Definition price_deviation_event (r : logrec) : option Classification :=
  match call r with
  | LError =>
      if String.eqb (fmt r)
           "Current price: %s is %s standard deviations above the mean: %s"
         || String.eqb (fmt r)
              "Current price: %s is %s standard deviations below the mean: %s"
      then Some Alert else None
  | LInfo =>
      if String.eqb (fmt r)
           "Current price (%s) is within 1 standard deivation (%s) from the sample mean (%s)."
      then Some Info else None
  | _ => None
  end.

(** *** A sample environment *)

(** [float] on a non-empty string of decimal digits. *)
Fixpoint digits_value (s : string) (acc : Z) : option Z :=
  match s with
  | EmptyString => Some acc
  | String c s' =>
      let n := nat_of_ascii c in
      if ((48 <=? n) && (n <=? 57))%nat
      then digits_value s' (10 * acc + Z.of_nat (n - 48))%Z
      else None
  end.

Definition float_of_digits (s : string) : option R :=
  match s with
  | EmptyString => None
  | String _ _ => option_map IZR (digits_value s 0)
  end.

Definition ticker (close open : string) (changes : list string) : val :=
  VDict [("close", VStr close); ("open", VStr open);
         ("changes", VList (map VStr changes))].

(** A provider that answers every request with the same ticker. *)
Definition http_ticker (t : val) (n : nat) (url : string) : option response :=
  Some {| status_ok := true; body := Some t |}.

(** A provider that answers with the hourly candles at the address of the
    hourly candles of [symbol], and with the candles of the last minutes
    anywhere else. *)
Definition http_candles (symbol : string) (hourly minutely : val) (n : nat)
    (url : string) : option response :=
  if String.eqb url (get_candles_url symbol "1hr")
  then Some {| status_ok := true; body := Some hourly |}
  else Some {| status_ok := true; body := Some minutely |}.

(** The world of [main] once logging is set up and the arguments are logged
    (lines 293-294). *)
Definition started (currency : val) (alert_type : string) (deviation : R)
    (debug : val) (w : world) : world :=
  logged (snd (setup_logging debug w))
    [entry LDebug "Currency: %s, type: %s, deviation: %s"
       [AVal currency; AVal (VStr alert_type); AVal (VNum deviation)]].

(** A computation is quiet when no path through it makes the sink emit;
    [tr] reads the trace in the state of the computation. *)
Definition quiet_on {St A} (tr : St -> list logrec) (m : M St A) : Prop :=
  forall s, sink_events (tr (snd (m s))) = sink_events (tr s).

(** The trace, seen from a computation that has a frame of locals. *)
Definition frame_trace {L} (s : world * L) : list logrec := trace (fst s).

(** A computation is total when it returns on every path: it lets no
    exception escape. *)
Definition total {A} (m : M world A) : Prop :=
  forall w, exists a w', m w = (Ok a, w').

(** A computation returns [a] when it does so from every world. *)
Definition returns {A} (m : M world A) (a : A) : Prop :=
  forall w, exists w', m w = (Ok a, w').

(** The address of the ticker of [symbol]. *)
Definition ticker_url (symbol : string) : string :=
  (GEMINI_API_BASE_URL ++ "/" ++ API_VERSION ++ "/ticker/" ++ symbol)%string.

(** The ticker of the end-to-end scenario of the specification. *)
Definition scenario_ticker : val :=
  ticker "105" "100" ["100"; "101"; "99"; "102"; "98"].

Definition scenario_changes : list R := [100; 101; 99; 102; 98].

(** A ticker whose close is 50 percent above its open. *)
Definition ticker_150 : val := ticker "150" "100" ["100"; "101"; "99"; "102"; "98"].

(** A ticker with a single hourly change. *)
Definition short_ticker : val := ticker "105" "100" ["100"].

(** One hourly candle of volume 100 and one minute candle of volume 50;
    the fields before the volume are time, open, high, low and close. *)
Definition hourly_100 : list (list val * R) :=
  [([VNum 1700000000000; VNum 100; VNum 101; VNum 99; VNum 100], 100)].

Definition minute_50 : list val * R :=
  ([VNum 1700003600000; VNum 100; VNum 100; VNum 100; VNum 100], 50).

(** A computation raises [e] when it does so from every world. *)
Definition raises {A} (m : M world A) (e : exn) : Prop :=
  forall w, exists w', m w = (Raise e, w').

(** A provider that answers with a ticker at the address of the ticker of
    [symbol], and with candles at the other addresses. *)
Definition http_exchange (symbol : string) (t hourly minutely : val) (n : nat)
    (url : string) : option response :=
  if String.eqb url (ticker_url symbol)
  then Some {| status_ok := true; body := Some t |}
  else http_candles symbol hourly minutely n url.

(** The world after one more request has been sent. *)
Definition sent (w : world) : world :=
  {| trace := trace w; nreq := S (nreq w); loglevel := loglevel w |}.

(** A provider that cannot be reached: every [requests.get] raises. *)
Definition http_down (n : nat) (url : string) : option response := None.

(** A provider that answers every request with an error status and the
    body [b]. *)
Definition http_error (b : val) (n : nat) (url : string) : option response :=
  Some {| status_ok := false; body := Some b |}.

(** A computation keeps the observation [f] of the state when no path
    through it changes [f]. *)
Definition keeps {St A X} (f : St -> X) (m : M St A) : Prop :=
  forall s, f (snd (m s)) = f s.

(** A computation sends between [lo] and [hi] requests, on every path. *)
Definition requests_between {A} (m : M world A) (lo hi : nat) : Prop :=
  forall w, (nreq w + lo <= nreq (snd (m w)) <= nreq w + hi)%nat.


(** A ticker whose close is the string "0". *)
Definition zero_ticker : val := ticker "0" "100" ["100"; "101"; "99"; "102"; "98"].

(** The items of the ticker of the scenario. *)
Definition scenario_items : list (string * val) :=
  [("close", VStr "105"); ("open", VStr "100");
   ("changes", VList (map VStr ["100"; "101"; "99"; "102"; "98"]))].

(** * Properties *)

Unset Implicit Arguments.

(** ** Comparisons on floats *)

Lemma Rnonzero_true (r : R) : Rnonzero r = true <-> r <> 0.
Proof.
  unfold Rnonzero. destruct (Req_dec_T r 0); split; intros; congruence.
Qed.

Lemma Rnonzero_false (r : R) : Rnonzero r = false <-> r = 0.
Proof.
  unfold Rnonzero. destruct (Req_dec_T r 0); split; intros; congruence.
Qed.

Lemma Rgtb_true (a b : R) : Rgtb a b = true <-> a > b.
Proof.
  unfold Rgtb. destruct (Rgt_dec a b); split; intros; congruence.
Qed.

Lemma Rgtb_false (a b : R) : Rgtb a b = false <-> a <= b.
Proof.
  unfold Rgtb. destruct (Rgt_dec a b); split; intros; try congruence; lra.
Qed.

Lemma Rltb_true (a b : R) : Rltb a b = true <-> a < b.
Proof.
  unfold Rltb. destruct (Rlt_dec a b); split; intros; congruence.
Qed.

Lemma Rltb_false (a b : R) : Rltb a b = false <-> b <= a.
Proof.
  unfold Rltb. destruct (Rlt_dec a b); split; intros; try congruence; lra.
Qed.

(** ** Percentage change *)

Lemma calculate_percentage_change_nonzero (f i : R) (w : world) :
  f <> 0 -> i <> 0 ->
  calculate_percentage_change (VNum f) (VNum i) w =
    (Ok (((f - i) / i) * 100),
     snd (log LInfo "Calculate percentage change between final and inital value." [] w)).
Proof.
  intros Hf Hi. apply Rnonzero_true in Hf. apply Rnonzero_true in Hi.
  unfold calculate_percentage_change, bind, lift, ret, py_truediv. simpl.
  rewrite Hf, Hi. simpl. reflexivity.
Qed.

Lemma calculate_percentage_change_zero (f i : R) (w : world) :
  f = 0 \/ i = 0 ->
  fst (calculate_percentage_change (VNum f) (VNum i) w) = Raise ValueError.
Proof.
  intros H. unfold calculate_percentage_change, bind. simpl.
  destruct H as [H | H]; apply Rnonzero_false in H; rewrite H;
    [ | rewrite andb_false_r]; reflexivity.
Qed.

(** C4. For non-zero [final] and [initial] the percentage change is
    [((final - initial) / initial) * 100], so (110, 100) gives 10 and
    (90, 100) gives -10; the function raises [ValueError], and returns
    nothing, exactly when one of the two is zero. *)
Theorem calculate_percentage_change_spec (f i : R) (w : world) :
  (f <> 0 -> i <> 0 ->
   fst (calculate_percentage_change (VNum f) (VNum i) w) = Ok (((f - i) / i) * 100)) /\
  (fst (calculate_percentage_change (VNum f) (VNum i) w) = Raise ValueError <->
   f = 0 \/ i = 0) /\
  fst (calculate_percentage_change (VNum 110) (VNum 100) w) = Ok 10.0 /\
  fst (calculate_percentage_change (VNum 90) (VNum 100) w) = Ok (-10.0).
Proof.
  split; [ | split; [ | split ] ].
  - intros Hf Hi. rewrite calculate_percentage_change_nonzero by assumption.
    reflexivity.
  - split.
    + intros H. destruct (Req_dec_T f 0) as [ | Hf]; [now left | ].
      destruct (Req_dec_T i 0) as [ | Hi]; [now right | ].
      rewrite calculate_percentage_change_nonzero in H by assumption.
      discriminate.
    + apply calculate_percentage_change_zero.
  - rewrite calculate_percentage_change_nonzero by lra. simpl. f_equal. lra.
  - rewrite calculate_percentage_change_nonzero by lra. simpl. f_equal. lra.
Qed.

Lemma calculate_percentage_change_spec_witness :
  fst (calculate_percentage_change (VNum 110) (VNum 100)
         {| trace := []; nreq := 0; loglevel := INFO |}) =
  Ok (((110 - 100) / 100) * 100).
Proof.
  apply (proj1 (calculate_percentage_change_spec 110 100
                  {| trace := []; nreq := 0; loglevel := INFO |})); lra.
Defined.

(** ** The trace *)


Lemma log_run (c : logcall) (f : string) (a : list logarg) (w : world) :
  log c f a w = (Ok tt, logged w [entry c f a]).
Proof. reflexivity. Qed.

Lemma logged_logged (w : world) (l1 l2 : list logrec) :
  logged (logged w l1) l2 = logged w (l1 ++ l2).
Proof. unfold logged. simpl. rewrite app_assoc. reflexivity. Qed.

Lemma logged_nil (w : world) : logged w [] = w.
Proof. destruct w. unfold logged. simpl. rewrite app_nil_r. reflexivity. Qed.

(** ** Mean and standard deviation *)


Lemma stats_mean_spec (l : list R) :
  (1 <= List.length l)%nat -> stats_mean l = Ok (sample_mean_spec l).
Proof.
  destruct l as [ | x l]; simpl; [lia | reflexivity].
Qed.

Lemma stats_stdev_spec (l : list R) :
  (2 <= List.length l)%nat -> stats_stdev l = Ok (bessel_stdev_spec l).
Proof.
  destruct l as [ | x [ | y l]]; simpl; try lia. intros _.
  unfold stats_stdev, stats_variance, bessel_stdev_spec, sum_sq_dev, sample_mean_spec,
    rbind.
  do 3 f_equal.
  rewrite minus_INR by (simpl; lia). reflexivity.
Qed.

Lemma stats_stdev_short (l : list R) :
  (List.length l < 2)%nat -> stats_stdev l = Raise StatisticsError.
Proof.
  destruct l as [ | x [ | y l]]; simpl; try lia; reflexivity.
Qed.

Lemma Rsum_constant (c : R) (l : list R) :
  (forall x, In x l -> x = c) -> Rsum l = INR (List.length l) * c.
Proof.
  induction l as [ | a l IH]; intros H.
  - simpl. ring.
  - change (Rsum (a :: l)) with (a + Rsum l).
    change (List.length (a :: l)) with (S (List.length l)).
    rewrite S_INR, IH by (intros; apply H; simpl; auto).
    rewrite (H a) by (simpl; auto). ring.
Qed.

Lemma sum_sq_dev_constant (c : R) (l : list R) :
  (forall x, In x l -> x = c) -> sum_sq_dev c l = 0.
Proof.
  unfold sum_sq_dev. induction l as [ | a l IH]; intros H.
  - reflexivity.
  - change (Rsum (map (fun x => (x - c) * (x - c)) (a :: l)))
      with ((a - c) * (a - c) + Rsum (map (fun x => (x - c) * (x - c)) l)).
    rewrite IH by (intros; apply H; simpl; auto).
    rewrite (H a) by (simpl; auto). ring.
Qed.

Lemma stats_stdev_identical (l : list R) :
  (2 <= List.length l)%nat ->
  (forall x y, In x l -> In y l -> x = y) ->
  stats_stdev l = Ok 0.
Proof.
  intros Hlen Hsame.
  destruct l as [ | c l]; [simpl in Hlen; lia | ].
  assert (Hc : forall x, In x (c :: l) -> x = c)
    by (intros x Hx; apply Hsame; simpl; auto).
  destruct l as [ | d l]; [simpl in Hlen; lia | ].
  unfold stats_stdev, stats_variance, rbind.
  rewrite (@Rsum_constant c _ Hc).
  replace (INR (List.length (c :: d :: l)) * c / INR (List.length (c :: d :: l)))
    with c.
  - rewrite (@sum_sq_dev_constant c _ Hc). unfold Rdiv. rewrite Rmult_0_l, sqrt_0.
    reflexivity.
  - field. apply not_0_INR. simpl. lia.
Qed.

(** ** The z-score *)


Lemma calculate_zscore_ok (past : list R) (cur sd m : R) (w : world) :
  stats_stdev past = Ok sd -> stats_mean past = Ok m -> sd <> 0 ->
  calculate_zscore past cur w =
    (Ok ((cur - m) / sd, m, sd),
     logged w [zscore_info;
               entry LDebug "Past data stdev: %s" [AVal (VNum sd)];
               entry LDebug "zscore of sample data: %s" [AVal (VNum ((cur - m) / sd))]]).
Proof.
  intros Hsd Hm Hnz. apply Rnonzero_true in Hnz.
  unfold calculate_zscore, with_frame, try_except, bind, zoom, lift, store, load, ret,
    py_truediv.
  simpl. rewrite Hsd. simpl. rewrite Hm. simpl. rewrite Hnz. simpl.
  unfold logged. simpl. rewrite <- !app_assoc. reflexivity.
Qed.

Lemma calculate_zscore_no_stdev (past : list R) (cur : R) (w : world) :
  stats_stdev past = Raise StatisticsError ->
  calculate_zscore past cur w =
    (Raise UnboundLocalError,
     logged w [zscore_info;
               entry LException "Failed to calculate standard deviation: %s"
                 [AExn StatisticsError]]).
Proof.
  intros Hsd.
  unfold calculate_zscore, with_frame, try_except, bind, zoom, lift, store, load, ret.
  simpl. rewrite Hsd. simpl.
  unfold logged. simpl. rewrite <- !app_assoc. reflexivity.
Qed.

Lemma calculate_zscore_zero_stdev (past : list R) (cur : R) (w : world) :
  stats_stdev past = Ok 0 ->
  calculate_zscore past cur w =
    (Raise UnboundLocalError,
     logged w [zscore_info;
               entry LDebug "Past data stdev: %s" [AVal (VNum 0)];
               entry LException "Failed to calculate standard deviation: %s"
                 [AExn ZeroDivisionError]]).
Proof.
  intros Hsd.
  assert (Hm : exists m, stats_mean past = Ok m).
  { destruct past as [ | x l]; [discriminate | ]. eexists. reflexivity. }
  destruct Hm as [m Hm].
  assert (Hz : Rnonzero 0 = false) by (now apply Rnonzero_false).
  unfold calculate_zscore, with_frame, try_except, bind, zoom, lift, store, load, ret,
    py_truediv.
  simpl. rewrite Hsd. simpl. rewrite Hm. simpl. rewrite Hz. simpl.
  unfold logged. simpl. rewrite <- !app_assoc. reflexivity.
Qed.

Lemma stats_stdev_ok_length (past : list R) (sd : R) :
  stats_stdev past = Ok sd -> (2 <= List.length past)%nat.
Proof.
  destruct past as [ | x [ | y l]]; try discriminate. intros _. simpl. lia.
Qed.

(** Whatever the input, the function either returns the triple of the
    library's statistics or raises [UnboundLocalError]. *)
Lemma calculate_zscore_cases (past : list R) (cur : R) (w : world) :
  (exists sd m, stats_stdev past = Ok sd /\ stats_mean past = Ok m /\ sd <> 0 /\
     fst (calculate_zscore past cur w) = Ok ((cur - m) / sd, m, sd)) \/
  fst (calculate_zscore past cur w) = Raise UnboundLocalError.
Proof.
  destruct (stats_stdev past) as [sd | e] eqn:Hsd.
  - assert (Hm : exists m, stats_mean past = Ok m).
    { destruct past as [ | x l]; [discriminate | ]. eexists. reflexivity. }
    destruct Hm as [m Hm].
    destruct (Req_dec_T sd 0) as [-> | Hnz].
    + right. rewrite calculate_zscore_zero_stdev by assumption. reflexivity.
    + left. exists sd, m. rewrite (@calculate_zscore_ok past cur sd m w Hsd Hm Hnz). auto.
  - right.
    assert (e = StatisticsError) as ->.
    { destruct past as [ | x [ | y l]]; unfold stats_stdev in Hsd; simpl in Hsd;
        congruence. }
    rewrite calculate_zscore_no_stdev by assumption. reflexivity.
Qed.


Lemma sample_mean_12345 : sample_mean_spec [1; 2; 3; 4; 5] = 3.
Proof. unfold sample_mean_spec. simpl. lra. Qed.

Lemma bessel_stdev_12345 : bessel_stdev_spec [1; 2; 3; 4; 5] <> 0.
Proof.
  intros H. unfold bessel_stdev_spec in H. rewrite sample_mean_12345 in H.
  apply sqrt_eq_0 in H; unfold Rsqr in *; simpl in *; lra.
Qed.

(** C5. With at least two past values and a non-zero sample standard
    deviation, the function returns [(z, m, s)] where [m] is the sample mean,
    [s] the Bessel-corrected sample standard deviation and
    [z = (currentValue - m) / s]; for the past values 1..5 and the current
    value 3 the z-score is 0. *)
Theorem calculate_zscore_spec (past : list R) (cur : R) (w : world) :
  ((2 <= List.length past)%nat -> bessel_stdev_spec past <> 0 ->
   fst (calculate_zscore past cur w) =
     Ok ((cur - sample_mean_spec past) / bessel_stdev_spec past,
         sample_mean_spec past, bessel_stdev_spec past)) /\
  fst (calculate_zscore [1; 2; 3; 4; 5] 3 w) =
    Ok (0.0, sample_mean_spec [1; 2; 3; 4; 5], bessel_stdev_spec [1; 2; 3; 4; 5]).
Proof.
  assert (H : forall l c, (2 <= List.length l)%nat -> bessel_stdev_spec l <> 0 ->
            fst (calculate_zscore l c w) =
              Ok ((c - sample_mean_spec l) / bessel_stdev_spec l,
                  sample_mean_spec l, bessel_stdev_spec l)).
  { intros l c Hlen Hnz.
    rewrite (@calculate_zscore_ok l c (bessel_stdev_spec l) (sample_mean_spec l) w).
    - reflexivity.
    - now apply stats_stdev_spec.
    - apply stats_mean_spec. lia.
    - assumption. }
  split.
  - apply H.
  - rewrite H.
    + rewrite sample_mean_12345. do 3 f_equal.
      unfold Rdiv. replace (3 - 3) with 0 by lra. rewrite Rmult_0_l. lra.
    + simpl. lia.
    + apply bessel_stdev_12345.
Qed.

Lemma calculate_zscore_spec_witness :
  fst (calculate_zscore [1; 2; 3; 4; 5] 3 world0) =
    Ok ((3 - sample_mean_spec [1; 2; 3; 4; 5]) / bessel_stdev_spec [1; 2; 3; 4; 5],
        sample_mean_spec [1; 2; 3; 4; 5], bessel_stdev_spec [1; 2; 3; 4; 5]).
Proof.
  apply (proj1 (calculate_zscore_spec [1; 2; 3; 4; 5] 3 world0)).
  - simpl. lia.
  - apply bessel_stdev_12345.
Defined.

Lemma identical_555 (x y : R) : In x [5; 5; 5] -> In y [5; 5; 5] -> x = y.
Proof.
  simpl. intros Hx Hy.
  destruct Hx as [<- | [<- | [<- | []]]]; destruct Hy as [<- | [<- | [<- | []]]];
    reflexivity.
Qed.

(** C2 on the code. On the two examples of the specification the error of
    the statistics does not reach the caller. With the past values [1] the
    [StatisticsError] of [stdev], and with the past values [5, 5, 5] the
    [ZeroDivisionError] of the division, is caught by the [except] clause and
    only logged; the [return] statement that follows reads the local
    [zscore], which no assignment has reached, so the caller receives
    [UnboundLocalError] in both cases. *)
Theorem calculate_zscore_swallows_errors :
  calculate_zscore [1] 5 world0 =
    (Raise UnboundLocalError,
     logged world0
       [zscore_info;
        entry LException "Failed to calculate standard deviation: %s"
          [AExn StatisticsError]]) /\
  calculate_zscore [5; 5; 5] 6 world0 =
    (Raise UnboundLocalError,
     logged world0
       [zscore_info;
        entry LDebug "Past data stdev: %s" [AVal (VNum 0)];
        entry LException "Failed to calculate standard deviation: %s"
          [AExn ZeroDivisionError]]) /\
  fst (calculate_zscore [1] 5 world0) <> Raise StatisticsError /\
  fst (calculate_zscore [5; 5; 5] 6 world0) <> Raise ZeroDivisionError.
Proof.
  assert (H1 : stats_stdev [1] = Raise StatisticsError) by reflexivity.
  assert (H5 : stats_stdev [5; 5; 5] = Ok 0)
    by (apply stats_stdev_identical; [simpl; lia | apply identical_555]).
  rewrite (calculate_zscore_no_stdev [1] 5 world0 H1).
  rewrite (calculate_zscore_zero_stdev [5; 5; 5] 6 world0 H5).
  repeat split; discriminate.
Qed.

Lemma bessel_stdev_555 : bessel_stdev_spec [5; 5; 5] = 0.
Proof.
  assert (H : Ok (bessel_stdev_spec [5; 5; 5]) = Ok 0).
  { rewrite <- stats_stdev_spec by (simpl; lia).
    apply stats_stdev_identical; [simpl; lia | apply identical_555]. }
  now injection H.
Qed.

(** C10. The function never returns a partial or stale result: with fewer
    than two past values, and with a sample standard deviation of zero, it
    raises ([UnboundLocalError], at the [return]); so a triple [(z, m, s)]
    that it returns has [s <> 0] and [z = (currentValue - m) / s], with [m]
    and [s] the mean and the deviation of these very past values. *)
Theorem calculate_zscore_never_partial (past : list R) (cur : R) (w : world) :
  ((List.length past < 2)%nat ->
   fst (calculate_zscore past cur w) = Raise UnboundLocalError) /\
  ((2 <= List.length past)%nat -> bessel_stdev_spec past = 0 ->
   fst (calculate_zscore past cur w) = Raise UnboundLocalError) /\
  (forall z m s : R,
     fst (calculate_zscore past cur w) = Ok (z, m, s) ->
     s <> 0 /\ z = (cur - m) / s /\
     m = sample_mean_spec past /\ s = bessel_stdev_spec past).
Proof.
  split; [ | split].
  - intros Hlen. rewrite calculate_zscore_no_stdev; [reflexivity | ].
    now apply stats_stdev_short.
  - intros Hlen Hz. rewrite calculate_zscore_zero_stdev; [reflexivity | ].
    rewrite stats_stdev_spec by assumption. now rewrite Hz.
  - intros z m s H.
    destruct (calculate_zscore_cases past cur w)
      as [(sd & mu & Hsd & Hmu & Hnz & Hrun) | Hrun]; rewrite Hrun in H.
    + injection H as <- <- <-.
      pose proof (stats_stdev_ok_length past sd Hsd) as Hlen.
      rewrite stats_stdev_spec in Hsd by assumption.
      rewrite stats_mean_spec in Hmu by lia.
      injection Hsd as <-. injection Hmu as <-.
      repeat split. assumption.
    + discriminate.
Qed.

Lemma calculate_zscore_never_partial_witness :
  fst (calculate_zscore [1] 5 world0) = Raise UnboundLocalError /\
  fst (calculate_zscore [5; 5; 5] 6 world0) = Raise UnboundLocalError /\
  bessel_stdev_spec [1; 2; 3; 4; 5] <> 0.
Proof.
  split; [ | split].
  - apply (proj1 (calculate_zscore_never_partial [1] 5 world0)). simpl. lia.
  - apply (proj1 (proj2 (calculate_zscore_never_partial [5; 5; 5] 6 world0))).
    + simpl. lia.
    + apply bessel_stdev_555.
  - assert (H : fst (calculate_zscore [1; 2; 3; 4; 5] 3 world0) =
                Ok ((3 - sample_mean_spec [1; 2; 3; 4; 5])
                    / bessel_stdev_spec [1; 2; 3; 4; 5],
                    sample_mean_spec [1; 2; 3; 4; 5],
                    bessel_stdev_spec [1; 2; 3; 4; 5])).
    { rewrite (@calculate_zscore_ok [1; 2; 3; 4; 5] 3
                 (bessel_stdev_spec [1; 2; 3; 4; 5])
                 (sample_mean_spec [1; 2; 3; 4; 5])).
      - reflexivity.
      - apply stats_stdev_spec. simpl. lia.
      - reflexivity.
      - apply bessel_stdev_12345. }
    exact (proj1 (proj2 (proj2 (calculate_zscore_never_partial
                                  [1; 2; 3; 4; 5] 3 world0)) _ _ _ H)).
Defined.

(** ** The 24-hour volume *)

Lemma position_last (n : nat) : position (Z.of_nat (S n) - 1) (S n) = Some n.
Proof.
  unfold position.
  replace (Z.of_nat (S n) - 1)%Z with (Z.of_nat n) by lia.
  destruct (Z.ltb_spec (Z.of_nat n) 0); [lia | ].
  destruct (Z.leb_spec 0 (Z.of_nat n)); [ | lia].
  destruct (Z.ltb_spec (Z.of_nat n) (Z.of_nat (S n))); [ | lia].
  simpl. now rewrite Nat2Z.id.
Qed.

Lemma last_field (r : list val * R) :
  rbind (py_len (candle_row r)) (fun n => py_getitem (candle_row r) (n - 1)) =
  Ok (VNum (snd r)).
Proof.
  destruct r as [p v]. unfold candle_row, py_len, py_getitem, index_seq, rbind.
  cbn [fst snd]. rewrite length_app. cbn [List.length]. rewrite Nat.add_1_r.
  rewrite position_last, nth_error_app2 by lia.
  now rewrite Nat.sub_diag.
Qed.

Lemma last_fields (rows : list (list val * R)) :
  mapM (fun hour => rbind (py_len hour) (fun n => py_getitem hour (n - 1)))
    (map candle_row rows) =
  Ok (map (fun r => VNum (snd r)) rows).
Proof.
  induction rows as [ | r rows IH].
  - reflexivity.
  - change (map candle_row (r :: rows)) with (candle_row r :: map candle_row rows).
    cbn [mapM]. rewrite last_field, IH. reflexivity.
Qed.

Lemma fsum_floats (rows : list (list val * R)) :
  fsum (map (fun r => VNum (snd r)) rows) = Ok (Rsum (map snd rows)).
Proof.
  unfold fsum.
  assert (H : mapM py_num (map (fun r => VNum (snd r)) rows) = Ok (map snd rows)).
  { induction rows as [ | r rows IH]; [reflexivity | ].
    simpl. simpl in IH. rewrite IH. reflexivity. }
  rewrite H. reflexivity.
Qed.

Lemma get_total_volume_rows (rows : list (list val * R)) (w : world) :
  rows <> [] ->
  get_total_volume_past_24_hours (VList (map candle_row rows)) w =
    (Ok (Rsum (map snd (firstn 24 rows))),
     logged w [entry LDebug "Past 24 hours volume: %s"
                 [AVal (VList (map candle_row (firstn 24 rows)))]]).
Proof.
  intros Hne. destruct rows as [ | r rows]; [congruence | ].
  unfold get_total_volume_past_24_hours, bind, lift, py_slice_0_24, py_iter.
  cbn [truthy map]. rewrite log_run.
  change (candle_row r :: map candle_row rows) with (map candle_row (r :: rows)).
  rewrite firstn_map.
  change (firstn 24 (r :: rows)) with (r :: firstn 23 rows).
  cbn [truthy map].
  change (candle_row r :: map candle_row (firstn 23 rows))
    with (map candle_row (r :: firstn 23 rows)).
  rewrite last_fields, fsum_floats. reflexivity.
Qed.

Lemma get_total_volume_empty (w : world) :
  get_total_volume_past_24_hours (VList []) w =
    (Raise ValueError, logged w [entry LException "response cannot be empty" []]).
Proof. reflexivity. Qed.

Lemma firstn_min {A} (n : nat) (l : list A) :
  firstn (Nat.min n (List.length l)) l = firstn n l.
Proof.
  destruct (Nat.le_ge_cases n (List.length l)) as [H | H].
  - now rewrite Nat.min_l.
  - rewrite Nat.min_r by assumption.
    now rewrite firstn_all, firstn_all2.
Qed.

(** C8. On a non-empty sequence of candle rows the function returns the sum
    of the last field of the first [min 24 length] rows: 24 rows of volume 1
    give 24, and the other fields of the rows do not matter; on the empty
    sequence it raises [ValueError]. *)
Theorem get_total_volume_past_24_hours_spec (rows : list (list val * R)) (w : world) :
  (rows <> [] ->
   fst (get_total_volume_past_24_hours (VList (map candle_row rows)) w) =
     Ok (Rsum (map snd (firstn (Nat.min 24 (List.length rows)) rows)))) /\
  (forall other : list val,
     fst (get_total_volume_past_24_hours
            (VList (map candle_row (repeat (other, 1) 24))) w) = Ok 24.0) /\
  (forall rows' : list (list val * R),
     map snd rows' = map snd rows ->
     fst (get_total_volume_past_24_hours (VList (map candle_row rows')) w) =
     fst (get_total_volume_past_24_hours (VList (map candle_row rows)) w)) /\
  fst (get_total_volume_past_24_hours (VList []) w) = Raise ValueError.
Proof.
  split; [ | split; [ | split ] ].
  - intros Hne. rewrite get_total_volume_rows by assumption.
    rewrite firstn_min. reflexivity.
  - intros other. rewrite get_total_volume_rows by discriminate.
    simpl. f_equal. lra.
  - intros rows' Hvol. destruct rows as [ | r rows0].
    + destruct rows'; [reflexivity | discriminate].
    + destruct rows' as [ | r' rows0']; [discriminate | ].
      rewrite !get_total_volume_rows by discriminate.
      cbn [fst]. rewrite <- !firstn_map. now rewrite Hvol.
  - reflexivity.
Qed.

Lemma get_total_volume_past_24_hours_spec_witness :
  fst (get_total_volume_past_24_hours
         (VList (map candle_row [([VNum 7; VNum 3], 2); ([], 5)])) world0) =
  Ok (Rsum (map snd (firstn (Nat.min 24 2) [([VNum 7; VNum 3], 2); ([], 5)]))) /\
  fst (get_total_volume_past_24_hours
         (VList (map candle_row [([VNum 8], 2); ([VNone; VNone], 5)])) world0) =
  fst (get_total_volume_past_24_hours
         (VList (map candle_row [([VNum 7; VNum 3], 2); ([], 5)])) world0).
Proof.
  split.
  - apply (proj1 (get_total_volume_past_24_hours_spec
                    [([VNum 7; VNum 3], 2); ([], 5)] world0)).
    discriminate.
  - apply (proj1 (proj2 (proj2 (get_total_volume_past_24_hours_spec
                                  [([VNum 7; VNum 3], 2); ([], 5)] world0)))).
    reflexivity.
Defined.

(** ** What reaches the sink *)

Lemma sink_events_app (l1 l2 : list logrec) :
  sink_events (l1 ++ l2) = sink_events l1 ++ sink_events l2.
Proof. unfold sink_events. now rewrite flat_map_app. Qed.

Lemma sink_events_logged (w : world) (l : list logrec) :
  sink_events (trace (logged w l)) = sink_events (trace w) ++ sink_events l.
Proof. apply sink_events_app. Qed.

Section Quiet.

Context {St : Type} (tr : St -> list logrec).

Lemma quiet_ret {A} (a : A) : quiet_on tr (ret a).
Proof. intros s. reflexivity. Qed.

Lemma quiet_raise {A} (e : exn) : quiet_on tr (@raise St A e).
Proof. intros s. reflexivity. Qed.

Lemma quiet_lift {A} (r : result A) : quiet_on tr (lift r).
Proof. intros s. reflexivity. Qed.

Lemma quiet_bind {A B} (m : M St A) (k : A -> M St B) :
  quiet_on tr m -> (forall a, quiet_on tr (k a)) -> quiet_on tr (bind m k).
Proof.
  intros Hm Hk s. unfold bind. specialize (Hm s).
  destruct (m s) as [[a | e] s']; simpl in *.
  - now rewrite Hk.
  - assumption.
Qed.

Lemma quiet_try_except {A} (body : M St A) (cls : exn -> bool)
    (handler : exn -> M St A) :
  quiet_on tr body -> (forall e, quiet_on tr (handler e)) ->
  quiet_on tr (try_except body cls handler).
Proof.
  intros Hb Hh s. unfold try_except. specialize (Hb s).
  destruct (body s) as [[a | e] s']; simpl in *.
  - assumption.
  - destruct (cls e); simpl; [now rewrite Hh | assumption].
Qed.

End Quiet.

Lemma quiet_log (c : logcall) (f : string) (a : list logarg) :
  sink_event (entry c f a) = None -> quiet_on trace (log c f a).
Proof.
  intros H w. rewrite log_run. cbn [snd]. rewrite sink_events_logged.
  unfold sink_events at 2. cbn [flat_map]. rewrite H. now rewrite !app_nil_r.
Qed.

Lemma quiet_zoom {L A} (m : M world A) : quiet_on trace m -> quiet_on frame_trace (@zoom L A m).
Proof.
  intros H s. unfold zoom. specialize (H (fst s)).
  destruct (m (fst s)) as [r w']. assumption.
Qed.

Lemma quiet_with_frame {L A} (l0 : L) (m : M (world * L) A) :
  quiet_on frame_trace m -> quiet_on trace (with_frame l0 m).
Proof.
  intros H w. unfold with_frame. specialize (H (w, l0)).
  destruct (m (w, l0)) as [r s']. assumption.
Qed.

Lemma quiet_store {L} (upd : L -> L) : quiet_on frame_trace (store upd).
Proof. intros s. reflexivity. Qed.

Lemma quiet_load {L A} (get : L -> option A) : quiet_on frame_trace (load get).
Proof. intros s. unfold load. destruct (get (snd s)); reflexivity. Qed.

Lemma quiet_setup_logging (debug : val) : quiet_on trace (setup_logging debug).
Proof. intros w. reflexivity. Qed.

Lemma quiet_requests_get (url : string) : quiet_on trace (requests_get url).
Proof. intros w. unfold requests_get. destruct (http (nreq w) url); reflexivity. Qed.

Create HintDb quiet.

#[local] Hint Resolve quiet_store quiet_load quiet_setup_logging quiet_requests_get
  : quiet.

(** One step through the structure of a computation. *)
Ltac quiet_step :=
  lazymatch goal with
  | |- quiet_on _ (bind _ _) => apply quiet_bind; [ | intros ]
  | |- quiet_on _ (try_except _ _ _) => apply quiet_try_except; [ | intros ]
  | |- quiet_on _ (ret _) => apply quiet_ret
  | |- quiet_on _ (raise _) => apply quiet_raise
  | |- quiet_on _ (lift _) => apply quiet_lift
  | |- quiet_on _ (log _ _ _) => apply quiet_log; reflexivity
  | |- quiet_on _ (zoom _) => apply quiet_zoom
  | |- quiet_on _ (with_frame _ _) => apply quiet_with_frame
  | |- quiet_on _ (if ?b then _ else _) => destruct b
  | |- quiet_on _ (match ?x with _ => _ end) => destruct x
  | |- _ => solve [auto with quiet]
  end.

Ltac quiet_tac := cbv zeta; repeat quiet_step.

Lemma quiet_calculate_percentage_change (final initial : val) :
  quiet_on trace (calculate_percentage_change final initial).
Proof. unfold calculate_percentage_change. quiet_tac. Qed.

Lemma quiet_calculate_zscore (past : list R) (cur : R) :
  quiet_on trace (calculate_zscore past cur).
Proof. unfold calculate_zscore. quiet_tac. Qed.

Lemma quiet_get_tickerv2_url (symbol : string) : quiet_on trace (get_tickerv2_url symbol).
Proof. unfold get_tickerv2_url. quiet_tac. Qed.

Lemma quiet_get_current_volume_1m_interval (response : val) :
  quiet_on trace (get_current_volume_1m_interval response).
Proof. unfold get_current_volume_1m_interval. quiet_tac. Qed.

Lemma quiet_get_total_volume_past_24_hours (response : val) :
  quiet_on trace (get_total_volume_past_24_hours response).
Proof. unfold get_total_volume_past_24_hours. quiet_tac. Qed.

Lemma quiet_raise_for_status (r : response) : quiet_on trace (raise_for_status r).
Proof. unfold raise_for_status. quiet_tac. Qed.

#[local] Hint Resolve quiet_calculate_percentage_change quiet_calculate_zscore
  quiet_get_tickerv2_url quiet_get_current_volume_1m_interval
  quiet_get_total_volume_past_24_hours quiet_raise_for_status : quiet.

Lemma quiet_send_request (url : string) : quiet_on trace (send_request url).
Proof. unfold send_request. quiet_tac. Qed.

Lemma quiet_get_current_price (response : val) : quiet_on trace (get_current_price response).
Proof. unfold get_current_price. quiet_tac. Qed.

Lemma quiet_get_open_price (response : val) : quiet_on trace (get_open_price response).
Proof. unfold get_open_price. quiet_tac. Qed.

Lemma quiet_get_hourly_past_24_hours (response : val) :
  quiet_on trace (get_hourly_past_24_hours response).
Proof. unfold get_hourly_past_24_hours. quiet_tac. Qed.

#[local] Hint Resolve quiet_send_request quiet_get_current_price quiet_get_open_price
  quiet_get_hourly_past_24_hours : quiet.

Lemma quiet_get_price_deviation_zscore (url symbol : string) :
  quiet_on trace (get_price_deviation_zscore url symbol).
Proof. unfold get_price_deviation_zscore. quiet_tac. Qed.

Lemma quiet_get_price_deviation_classify (cp z m sd s : R) :
  quiet_on trace (get_price_deviation_classify cp z m sd s).
Proof. unfold get_price_deviation_classify. quiet_tac. Qed.

#[local] Hint Resolve quiet_get_price_deviation_zscore
  quiet_get_price_deviation_classify : quiet.

(** No path through the price-deviation analysis reaches the sink. *)
Lemma quiet_get_price_deviation (symbol : string) (stdev : R) :
  quiet_on trace (get_price_deviation symbol stdev).
Proof. unfold get_price_deviation. quiet_tac. Qed.

Lemma quiet_get_price_change_percent (symbol : string) :
  quiet_on trace (get_price_change_percent symbol).
Proof. unfold get_price_change_percent. quiet_tac. Qed.

Lemma quiet_get_volume_deviation_percent (symbol : string) :
  quiet_on trace (get_volume_deviation_percent symbol).
Proof. unfold get_volume_deviation_percent. quiet_tac. Qed.

(** ** Successful runs *)

Lemma bind_run {St A B} (m : M St A) (k : A -> M St B) (s s' : St) (a : A) :
  m s = (Ok a, s') -> bind m k s = k a s'.
Proof. intros H. unfold bind. now rewrite H. Qed.

Lemma returns_ret {A} (a : A) : returns (ret a) a.
Proof. intros w. now exists w. Qed.

Lemma returns_lift {A} (a : A) : returns (lift (Ok a)) a.
Proof. intros w. now exists w. Qed.

Lemma returns_log (c : logcall) (f : string) (a : list logarg) :
  returns (log c f a) tt.
Proof. intros w. eexists. apply log_run. Qed.

Lemma returns_bind {A B} (m : M world A) (k : A -> M world B) (a : A) (b : B) :
  returns m a -> returns (k a) b -> returns (bind m k) b.
Proof.
  intros Hm Hk w. destruct (Hm w) as [w1 H1]. destruct (Hk w1) as [w2 H2].
  exists w2. now rewrite (bind_run m k w w1 a H1).
Qed.

Lemma returns_calculate_percentage_change (f i : R) :
  f <> 0 -> i <> 0 ->
  returns (calculate_percentage_change (VNum f) (VNum i)) (((f - i) / i) * 100).
Proof.
  intros Hf Hi w. eexists. now apply calculate_percentage_change_nonzero.
Qed.

Lemma returns_calculate_zscore (past : list R) (cur : R) :
  (2 <= List.length past)%nat -> bessel_stdev_spec past <> 0 ->
  returns (calculate_zscore past cur)
    ((cur - sample_mean_spec past) / bessel_stdev_spec past,
     sample_mean_spec past, bessel_stdev_spec past).
Proof.
  intros Hlen Hnz w. eexists. apply calculate_zscore_ok.
  - now apply stats_stdev_spec.
  - apply stats_mean_spec. lia.
  - assumption.
Qed.

Lemma returns_get_tickerv2_url (symbol : string) :
  returns (get_tickerv2_url symbol)
    (GEMINI_API_BASE_URL ++ "/" ++ API_VERSION ++ "/ticker/" ++ symbol)%string.
Proof. intros w. eexists. reflexivity. Qed.

Lemma returns_send_request (url : string) (r : response) :
  (forall n, http n url = Some r) -> status_ok r = true ->
  returns (send_request url) r.
Proof.
  intros Hhttp Hok w. eexists.
  unfold send_request, with_frame, try_except, bind, zoom, store, load, requests_get,
    raise_for_status.
  simpl. rewrite Hhttp. simpl. rewrite Hok. simpl. reflexivity.
Qed.

Lemma returns_get_current_price (d : list (string * val)) (c : val) (x : R) :
  lookup "close" d = Some c -> truthy c = true -> py_float c = Ok x ->
  returns (get_current_price (VDict d)) x.
Proof.
  intros Hc Ht Hx w. eexists.
  unfold get_current_price, bind, lift, py_get, py_subscript.
  simpl. rewrite Hc, Ht. simpl. rewrite Hx. reflexivity.
Qed.

Lemma returns_get_open_price (d : list (string * val)) (c : val) (x : R) :
  lookup "open" d = Some c -> truthy c = true -> py_float c = Ok x ->
  returns (get_open_price (VDict d)) x.
Proof.
  intros Hc Ht Hx w. eexists.
  unfold get_open_price, bind, lift, py_get, py_subscript.
  simpl. rewrite Hc, Ht. simpl. rewrite Hx. reflexivity.
Qed.

Lemma returns_get_hourly_past_24_hours (d : list (string * val)) (xs : list val)
    (past : list R) :
  lookup "changes" d = Some (VList xs) -> mapM py_float xs = Ok past ->
  returns (get_hourly_past_24_hours (VDict d)) past.
Proof.
  intros Hc Hx w. eexists.
  unfold get_hourly_past_24_hours, bind, lift, py_get, py_iter.
  simpl. rewrite Hc. simpl. rewrite Hx. reflexivity.
Qed.

Lemma returns_get_total_volume_past_24_hours (rows : list (list val * R)) :
  rows <> [] ->
  returns (get_total_volume_past_24_hours (VList (map candle_row rows)))
    (Rsum (map snd (firstn 24 rows))).
Proof. intros Hne w. eexists. now apply get_total_volume_rows. Qed.

Lemma py_getitem_first (x : val) (l : list val) : py_getitem (VList (x :: l)) 0 = Ok x.
Proof.
  unfold py_getitem, index_seq, position. cbn [List.length].
  destruct (Z.ltb_spec 0 0); [lia | ].
  destruct (Z.leb_spec 0 0); [ | lia].
  destruct (Z.ltb_spec 0 (Z.of_nat (S (List.length l)))); [ | lia].
  reflexivity.
Qed.

Lemma truthy_candle_row (r : list val * R) : truthy (candle_row r) = true.
Proof. destruct r as [[ | x p] v]; reflexivity. Qed.

Lemma bind_lift {St A B} (r : result A) (k : A -> result B) (s : St) :
  bind (lift r) (fun a => lift (k a)) s = lift (rbind r k) s.
Proof. destruct r; reflexivity. Qed.

Lemma returns_get_current_volume_1m_interval (r : list val * R)
    (rows : list (list val * R)) :
  returns (get_current_volume_1m_interval (VList (map candle_row (r :: rows))))
    (VNum (snd r)).
Proof.
  intros w. exists w.
  unfold get_current_volume_1m_interval. cbn [map truthy].
  rewrite (bind_run _ _ w w (candle_row r))
    by (unfold lift; now rewrite py_getitem_first).
  rewrite truthy_candle_row, bind_lift, last_field. reflexivity.
Qed.

Section Phases.

Variables (symbol : string) (d : list (string * val)).

Hypothesis ticker_answer :
  forall n,
    http n (GEMINI_API_BASE_URL ++ "/" ++ API_VERSION ++ "/ticker/" ++ symbol)%string =
    Some {| status_ok := true; body := Some (VDict d) |}.

Lemma returns_get_price_deviation_zscore (c : val) (xs : list val) (cp : R)
    (past : list R) :
  lookup "close" d = Some c -> truthy c = true -> py_float c = Ok cp ->
  lookup "changes" d = Some (VList xs) -> mapM py_float xs = Ok past ->
  (2 <= List.length past)%nat -> bessel_stdev_spec past <> 0 ->
  returns
    (url <- get_tickerv2_url symbol ;; get_price_deviation_zscore url symbol)
    (cp, (cp - sample_mean_spec past) / bessel_stdev_spec past,
     sample_mean_spec past, bessel_stdev_spec past).
Proof.
  intros Hc Ht Hcp Hxs Hpast Hlen Hnz.
  eapply returns_bind; [apply returns_get_tickerv2_url | ].
  unfold get_price_deviation_zscore.
  eapply returns_bind; [apply returns_log | ].
  eapply returns_bind; [apply returns_send_request; [apply ticker_answer | reflexivity] | ].
  eapply returns_bind; [apply returns_lift | ].
  eapply returns_bind; [apply returns_log | ].
  eapply returns_bind; [eapply returns_get_current_price; eassumption | ].
  eapply returns_bind; [eapply returns_get_hourly_past_24_hours; eassumption | ].
  eapply returns_bind; [apply returns_log | ].
  eapply returns_bind; [apply returns_calculate_zscore; assumption | ].
  apply returns_ret.
Qed.

Lemma returns_get_price_change_percent (c o : val) (cp op : R) :
  lookup "close" d = Some c -> truthy c = true -> py_float c = Ok cp ->
  lookup "open" d = Some o -> truthy o = true -> py_float o = Ok op ->
  cp <> 0 -> op <> 0 ->
  returns (get_price_change_percent symbol) (cp, op, ((cp - op) / op) * 100).
Proof.
  intros Hc Htc Hcp Ho Hto Hop Hcp0 Hop0.
  unfold get_price_change_percent.
  eapply returns_bind; [apply returns_log | ].
  eapply returns_bind; [apply returns_get_tickerv2_url | ].
  eapply returns_bind; [apply returns_send_request; [apply ticker_answer | reflexivity] | ].
  eapply returns_bind; [apply returns_lift | ].
  eapply returns_bind; [apply returns_log | ].
  eapply returns_bind; [eapply returns_get_current_price; eassumption | ].
  eapply returns_bind; [eapply returns_get_open_price; eassumption | ].
  eapply returns_bind; [apply returns_calculate_percentage_change; assumption | ].
  apply returns_ret.
Qed.

End Phases.

Lemma returns_get_volume_deviation_percent (symbol : string)
    (hourly : list (list val * R)) (r : list val * R) (minutely : list (list val * R)) :
  (forall n, http n (get_candles_url symbol "1hr") =
             Some {| status_ok := true; body := Some (VList (map candle_row hourly)) |}) ->
  (forall n, http n (get_candles_url symbol "1m") =
             Some {| status_ok := true;
                     body := Some (VList (map candle_row (r :: minutely))) |}) ->
  hourly <> [] -> snd r <> 0 -> Rsum (map snd (firstn 24 hourly)) <> 0 ->
  returns (get_volume_deviation_percent symbol)
    (VNum (snd r), Rsum (map snd (firstn 24 hourly)),
     ((snd r - Rsum (map snd (firstn 24 hourly))) / Rsum (map snd (firstn 24 hourly)))
     * 100).
Proof.
  intros Hh Hm Hne Hr Ht.
  unfold get_volume_deviation_percent. cbv zeta.
  eapply returns_bind; [apply returns_send_request; [apply Hh | reflexivity] | ].
  eapply returns_bind; [apply returns_lift | ].
  eapply returns_bind; [apply returns_get_total_volume_past_24_hours; assumption | ].
  eapply returns_bind; [apply returns_send_request; [apply Hm | reflexivity] | ].
  eapply returns_bind; [apply returns_lift | ].
  eapply returns_bind; [apply returns_get_current_volume_1m_interval | ].
  eapply returns_bind; [apply returns_calculate_percentage_change; assumption | ].
  apply returns_ret.
Qed.

(** ** The sink *)

Lemma send_alert_run (alert_type : string) (message : text) (w : world) :
  nonempty_string alert_type = true -> truthy_text message = true ->
  send_alert alert_type message w =
    (Ok tt,
     logged w [entry LInfo "Sending alert." [];
               entry LError "ALERT TRIGGERED: %s, Message: %s"
                 [AVal (VStr alert_type); AText message]]).
Proof.
  intros Ha Hm. unfold send_alert, bind. rewrite log_run, Ha, Hm. cbn [andb].
  rewrite log_run, logged_logged. reflexivity.
Qed.

Lemma send_info_run (alert_type : string) (message : text) (w : world) :
  nonempty_string alert_type = true -> truthy_text message = true ->
  send_info alert_type message w =
    (Ok tt,
     logged w [entry LInfo "Sending info." [];
               entry LInfo "OK: %s, Message: %s"
                 [AVal (VStr alert_type); AText message]]).
Proof.
  intros Ha Hm. unfold send_info, bind. rewrite log_run, Ha, Hm. cbn [andb].
  rewrite log_run, logged_logged. reflexivity.
Qed.

Lemma sink_events_alert (w : world) (alert_type : string) (message : text) :
  sink_events
    (trace (logged w [entry LInfo "Sending alert." [];
                      entry LError "ALERT TRIGGERED: %s, Message: %s"
                        [AVal (VStr alert_type); AText message]])) =
  sink_events (trace w) ++ [(Alert, [AVal (VStr alert_type); AText message])].
Proof. now rewrite sink_events_logged. Qed.

Lemma sink_events_info (w : world) (alert_type : string) (message : text) :
  sink_events
    (trace (logged w [entry LInfo "Sending info." [];
                      entry LInfo "OK: %s, Message: %s"
                        [AVal (VStr alert_type); AText message]])) =
  sink_events (trace w) ++ [(Info, [AVal (VStr alert_type); AText message])].
Proof. now rewrite sink_events_logged. Qed.

(** ** Price change *)

(** What the price-change analysis hands to the sink. *)
Lemma get_price_change_classify_run (cp op p t : R) (w : world) :
  exists w',
    get_price_change_classify cp op p t w = (Ok tt, w') /\
    sink_events (trace w') =
      sink_events (trace w) ++
      [if Rgtb (Rabs p) t
       then (Alert, [AVal (VStr "pricechange");
                     AText (price_change_alert_message p cp op t)])
       else (Info, [AVal (VStr "pricechange");
                    AText (price_change_info_message p cp op t)])].
Proof.
  unfold get_price_change_classify. destruct (Rgtb (Rabs p) t); eexists; split.
  - now apply send_alert_run.
  - apply sink_events_alert.
  - now apply send_info_run.
  - apply sink_events_info.
Qed.

Lemma get_price_change_run (symbol : string) (t cp op p : R) (w w1 : world) :
  get_price_change_percent symbol w = (Ok (cp, op, p), w1) ->
  exists w',
    get_price_change symbol t w = (Ok tt, w') /\
    sink_events (trace w') =
      sink_events (trace w) ++
      [if Rgtb (Rabs p) t
       then (Alert, [AVal (VStr "pricechange");
                     AText (price_change_alert_message p cp op t)])
       else (Info, [AVal (VStr "pricechange");
                    AText (price_change_info_message p cp op t)])].
Proof.
  intros Hrun.
  destruct (get_price_change_classify_run cp op p t w1) as (w' & Hc & Hs).
  exists w'. split.
  - unfold get_price_change, try_except, bind. rewrite Hrun, Hc. reflexivity.
  - rewrite Hs. f_equal.
    pose proof (quiet_get_price_change_percent symbol w) as Hq.
    rewrite Hrun in Hq. exact Hq.
Qed.

(** When the price-change analysis has computed the percentage change [p],
    the sink receives one event, an alert exactly when [abs p > t]: the test
    is strict. *)
Lemma price_change_magnitude (symbol : string) (t cp op p : R) (w w1 : world) :
  get_price_change_percent symbol w = (Ok (cp, op, p), w1) ->
  exists (w' : world) (c : Classification) (message : text),
    get_price_change symbol t w = (Ok tt, w') /\
    sink_events (trace w') =
      sink_events (trace w) ++ [(c, [AVal (VStr "pricechange"); AText message])] /\
    (c = Alert <-> Rabs p > t) /\
    (c = Info <-> Rabs p <= t).
Proof.
  intros Hrun.
  destruct (get_price_change_run symbol t cp op p w w1 Hrun) as (w' & Hr & Hs).
  destruct (Rgtb (Rabs p) t) eqn:Hgt.
  - apply Rgtb_true in Hgt.
    exists w', Alert, (price_change_alert_message p cp op t).
    repeat split; intros; try congruence; try assumption; lra.
  - apply Rgtb_false in Hgt.
    exists w', Info, (price_change_info_message p cp op t).
    repeat split; intros; try congruence; try assumption; lra.
Qed.

(** ** Volume deviation *)

Lemma get_volume_deviation_classify_run (cv : val) (tv p t : R) (w : world) :
  exists w',
    get_volume_deviation_classify cv tv p t w = (Ok tt, w') /\
    sink_events (trace w') =
      sink_events (trace w) ++
      [(if Rgtb p t then Alert else Info,
        [AVal (VStr "voldev"); AText (volume_deviation_message p cv tv t)])].
Proof.
  unfold get_volume_deviation_classify. cbv zeta.
  destruct (Rgtb p t); eexists; split.
  - now apply send_alert_run.
  - apply sink_events_alert.
  - now apply send_info_run.
  - apply sink_events_info.
Qed.

Lemma get_volume_deviation_run (symbol : string) (t : R) (cv : val) (tv p : R)
    (w w1 : world) :
  get_volume_deviation_percent symbol w = (Ok (cv, tv, p), w1) ->
  exists w',
    get_volume_deviation symbol t w = (Ok tt, w') /\
    sink_events (trace w') =
      sink_events (trace w) ++
      [(if Rgtb p t then Alert else Info,
        [AVal (VStr "voldev"); AText (volume_deviation_message p cv tv t)])].
Proof.
  intros Hrun.
  destruct (get_volume_deviation_classify_run cv tv p t w1) as (w' & Hc & Hs).
  exists w'. split.
  - unfold get_volume_deviation, try_except, bind. rewrite Hrun, Hc. reflexivity.
  - rewrite Hs. f_equal.
    pose proof (quiet_get_volume_deviation_percent symbol w) as Hq.
    rewrite Hrun in Hq. exact Hq.
Qed.

(** C6, as the code has it. When the volume analysis has computed the
    percentage change [p], the sink receives one event, an alert exactly when
    [p > t]; the comparison is on [p] itself, so a negative change is
    informational whenever the threshold is not negative. *)
Theorem volume_deviation_directional (symbol : string) (t : R) (cv : val) (tv p : R)
    (w w1 : world) :
  get_volume_deviation_percent symbol w = (Ok (cv, tv, p), w1) ->
  exists (w' : world) (c : Classification),
    get_volume_deviation symbol t w = (Ok tt, w') /\
    sink_events (trace w') =
      sink_events (trace w) ++
      [(c, [AVal (VStr "voldev"); AText (volume_deviation_message p cv tv t)])] /\
    (c = Alert <-> p > t) /\
    (c = Info <-> ~ p > t) /\
    (p < 0 -> 0 <= t -> c = Info).
Proof.
  intros Hrun.
  destruct (get_volume_deviation_run symbol t cv tv p w w1 Hrun) as (w' & Hr & Hs).
  exists w', (if Rgtb p t then Alert else Info).
  split; [assumption | split; [assumption | ] ].
  destruct (Rgtb p t) eqn:Hgt.
  - apply Rgtb_true in Hgt.
    repeat split; intros; try congruence; try assumption; lra.
  - apply Rgtb_false in Hgt.
    repeat split; intros; try congruence; try reflexivity; lra.
Qed.

(** ** Price deviation *)

Lemma get_price_deviation_classify_run (cp z m sd s : R) (w : world) :
  exists r,
    get_price_deviation_classify cp z m sd s w = (Ok tt, logged w [r]) /\
    price_deviation_event r =
      Some (if Rgtb z s || Rltb z (s * -1.00) then Alert else Info).
Proof.
  unfold get_price_deviation_classify.
  destruct (Rgtb z s); [ | destruct (Rltb z (s * -1.00))];
    eexists; (split; [apply log_run | reflexivity]).
Qed.

Lemma sigma_test (z s : R) :
  Rgtb z s || Rltb z (s * -1.00) = true <-> z > s \/ z < - s.
Proof.
  rewrite orb_true_iff, Rgtb_true, Rltb_true.
  replace (s * -1.00) with (- s) by lra. reflexivity.
Qed.

Lemma get_price_deviation_classify_spec (cp z m sd s : R) (w : world) :
  exists r,
    get_price_deviation_classify cp z m sd s w = (Ok tt, logged w [r]) /\
    (price_deviation_event r = Some Alert <-> z > s \/ z < - s) /\
    (price_deviation_event r = Some Info <-> ~ (z > s \/ z < - s)).
Proof.
  destruct (get_price_deviation_classify_run cp z m sd s w) as (r & Hrun & Hev).
  exists r. split; [assumption | ]. rewrite Hev, <- sigma_test.
  destruct (Rgtb z s || Rltb z (s * -1.00)); split; split; intros; congruence.
Qed.

Lemma get_price_deviation_run (symbol : string) (s cp z m sd : R) (w w1 : world) :
  (url <- get_tickerv2_url symbol ;; get_price_deviation_zscore url symbol) w =
    (Ok (cp, z, m, sd), w1) ->
  exists r,
    get_price_deviation symbol s w = (Ok tt, logged w1 [r]) /\
    (price_deviation_event r = Some Alert <-> z > s \/ z < - s) /\
    (price_deviation_event r = Some Info <-> ~ (z > s \/ z < - s)).
Proof.
  intros Hrun.
  destruct (get_price_deviation_classify_spec cp z m sd s w1) as (r & Hc & Hev).
  exists r. split; [ | assumption].
  unfold get_price_deviation, try_except.
  unfold bind in Hrun |- *.
  destruct (get_tickerv2_url symbol w) as [[url | e] w0]; [ | discriminate].
  rewrite Hrun, Hc. reflexivity.
Qed.

Lemma main_pricedev (currency : val) (deviation : R) (symbol : string) (debug : val)
    (w : world) :
  main currency "pricedev" deviation symbol debug w =
  get_price_deviation symbol 1.0 (started currency "pricedev" deviation debug w).
Proof. reflexivity. Qed.

Lemma main_pricechange (currency : val) (deviation : R) (symbol : string)
    (debug : val) (w : world) :
  main currency "pricechange" deviation symbol debug w =
  get_price_change symbol (deviation * 100)
    (started currency "pricechange" deviation debug w).
Proof. reflexivity. Qed.

Lemma main_voldev (currency : val) (deviation : R) (symbol : string) (debug : val)
    (w : world) :
  main currency "voldev" deviation symbol debug w =
  get_volume_deviation symbol (deviation * 100)
    (started currency "voldev" deviation debug w).
Proof. reflexivity. Qed.

Lemma main_all (currency : val) (deviation : R) (symbol : string) (debug : val)
    (w : world) :
  main currency "all" deviation symbol debug w =
  (get_price_deviation symbol 1.0 ;;
   get_price_change symbol (deviation * 100) ;;
   get_volume_deviation symbol (deviation * 100))
    (started currency "all" deviation debug w).
Proof. reflexivity. Qed.

(** C3. The sigma test is strict: for every z-score [z] and sigma threshold
    [s], and so when the analysis has computed the z-score [z], the verdict
    is an alert exactly when [z > s] or [z < -s], and informational
    otherwise; [z = 1.0] against [s = 1.0] is informational and
    [z = 1.01] an alert; and [main] runs the analysis with the sigma
    threshold 1.0, whatever the deviation asked for, both for the alert
    type "pricedev" and for "all". *)
Theorem price_deviation_sigma (symbol : string) (s cp z m sd : R) (w w1 : world) :
  (exists r,
     get_price_deviation_classify cp z m sd s w = (Ok tt, logged w [r]) /\
     (price_deviation_event r = Some Alert <-> z > s \/ z < - s) /\
     (price_deviation_event r = Some Info <-> ~ (z > s \/ z < - s))) /\
  ((url <- get_tickerv2_url symbol ;; get_price_deviation_zscore url symbol) w =
     (Ok (cp, z, m, sd), w1) ->
   exists r,
     get_price_deviation symbol s w = (Ok tt, logged w1 [r]) /\
     (price_deviation_event r = Some Alert <-> z > s \/ z < - s) /\
     (price_deviation_event r = Some Info <-> ~ (z > s \/ z < - s))) /\
  (exists r,
     get_price_deviation_classify cp 1.0 m sd 1.0 w = (Ok tt, logged w [r]) /\
     price_deviation_event r = Some Info) /\
  (exists r,
     get_price_deviation_classify cp 1.01 m sd 1.0 w = (Ok tt, logged w [r]) /\
     price_deviation_event r = Some Alert) /\
  (forall (currency debug : val) (deviation : R),
     main currency "pricedev" deviation symbol debug w =
     get_price_deviation symbol 1.0 (started currency "pricedev" deviation debug w) /\
     main currency "all" deviation symbol debug w =
     (get_price_deviation symbol 1.0 ;;
      get_price_change symbol (deviation * 100) ;;
      get_volume_deviation symbol (deviation * 100))
       (started currency "all" deviation debug w)).
Proof.
  split; [ | split; [ | split; [ | split ] ] ].
  - apply get_price_deviation_classify_spec.
  - apply get_price_deviation_run.
  - destruct (get_price_deviation_classify_spec cp 1.0 m sd 1.0 w) as (r & Hc & _ & Hev).
    exists r. split; [assumption | ]. apply Hev. lra.
  - destruct (get_price_deviation_classify_spec cp 1.01 m sd 1.0 w)
      as (r & Hc & Hev & _).
    exists r. split; [assumption | ]. apply Hev. lra.
  - intros. split; [apply main_pricedev | apply main_all].
Qed.

(** ** The orchestrator *)

Lemma total_try_except_log (body : M world unit) (c : logcall) (f : string)
    (a : exn -> list logarg) :
  total (try_except body Exception (fun ex => log c f (a ex))).
Proof.
  intros w. unfold try_except.
  destruct (body w) as [[[] | e] w'].
  - now exists tt, w'.
  - cbn [Exception]. rewrite log_run. eexists _, _. reflexivity.
Qed.

Lemma total_get_price_deviation (symbol : string) (stdev : R) :
  total (get_price_deviation symbol stdev).
Proof.
  intros w. unfold get_price_deviation, get_tickerv2_url, bind.
  rewrite log_run. cbn [ret]. apply total_try_except_log.
Qed.

Lemma total_get_price_change (symbol : string) (threshold : R) :
  total (get_price_change symbol threshold).
Proof. apply total_try_except_log. Qed.

Lemma total_get_volume_deviation (symbol : string) (threshold : R) :
  total (get_volume_deviation symbol threshold).
Proof.
  exact (total_try_except_log _ LException "Failed to get volume deviation"
           (fun _ => [])).
Qed.

(** C9. For the alert type "all" the orchestrator runs the price-deviation,
    the price-change and the volume-deviation analysis, in this order; each
    of them returns, whatever error was raised inside it, so the next one
    runs, and so does [main]. *)
Theorem main_all_runs_every_kind (currency : val) (deviation : R) (symbol : string)
    (debug : val) (w : world) :
  exists w1 w2 w3 : world,
    get_price_deviation symbol 1.0 (started currency "all" deviation debug w) =
      (Ok tt, w1) /\
    get_price_change symbol (deviation * 100) w1 = (Ok tt, w2) /\
    get_volume_deviation symbol (deviation * 100) w2 = (Ok tt, w3) /\
    main currency "all" deviation symbol debug w = (Ok tt, w3).
Proof.
  destruct (total_get_price_deviation symbol 1.0
              (started currency "all" deviation debug w)) as ([] & w1 & H1).
  destruct (total_get_price_change symbol (deviation * 100) w1) as ([] & w2 & H2).
  destruct (total_get_volume_deviation symbol (deviation * 100) w2) as ([] & w3 & H3).
  exists w1, w2, w3. repeat split; try assumption.
  rewrite main_all. unfold bind. now rewrite H1, H2, H3.
Qed.

(** ** From the provider to the verdict *)

Lemma sink_events_started (currency : val) (alert_type : string) (deviation : R)
    (debug : val) (w : world) :
  sink_events (trace (started currency alert_type deviation debug w)) =
  sink_events (trace w).
Proof.
  unfold started. rewrite sink_events_logged. simpl. now rewrite app_nil_r.
Qed.

(** Under both levels that [setup_logging] can configure, the events of the
    sink reach the output. *)
Lemma sink_events_emitted (w : world) :
  (loglevel w <= INFO)%Z -> sink_events (emitted w) = sink_events (trace w).
Proof.
  intros Hlevel. unfold emitted, sink_events.
  induction (trace w) as [ | r l IH]; [reflexivity | ].
  cbn [filter flat_map].
  destruct (Z.leb_spec (loglevel w) (levelno (call r))) as [Hle | Hgt].
  - cbn [flat_map]. now rewrite IH.
  - rewrite IH. unfold sink_event.
    destruct (call r); unfold INFO in Hlevel; simpl in Hgt; try lia; reflexivity.
Qed.

Section EndToEnd.

Variables (symbol : string) (d : list (string * val)).

Hypothesis ticker_answer :
  forall n,
    http n (GEMINI_API_BASE_URL ++ "/" ++ API_VERSION ++ "/ticker/" ++ symbol)%string =
    Some {| status_ok := true; body := Some (VDict d) |}.

Variables (currency debug : val) (deviation : R) (w : world).

(** The provider answers with a ticker whose close and open are non-zero
    prices: the sink receives the verdict of the magnitude test. *)
Lemma price_change_end_to_end (c o : val) (cp op : R) :
  lookup "close" d = Some c -> truthy c = true -> py_float c = Ok cp ->
  lookup "open" d = Some o -> truthy o = true -> py_float o = Ok op ->
  cp <> 0 -> op <> 0 ->
  let p := ((cp - op) / op) * 100 in
  let t := deviation * 100 in
  exists w',
    main currency "pricechange" deviation symbol debug w = (Ok tt, w') /\
    sink_events (trace w') =
      sink_events (trace w) ++
      [if Rgtb (Rabs p) t
       then (Alert, [AVal (VStr "pricechange");
                     AText (price_change_alert_message p cp op t)])
       else (Info, [AVal (VStr "pricechange");
                    AText (price_change_info_message p cp op t)])].
Proof.
  intros Hc Htc Hcp Ho Hto Hop Hcp0 Hop0 p t.
  destruct (returns_get_price_change_percent symbol d ticker_answer c o cp op
              Hc Htc Hcp Ho Hto Hop Hcp0 Hop0
              (started currency "pricechange" deviation debug w)) as [w1 Hrun].
  destruct (get_price_change_run symbol t cp op p _ w1 Hrun) as (w' & Hmain & Hs).
  exists w'. split.
  - now rewrite main_pricechange.
  - now rewrite Hs, sink_events_started.
Qed.

(** The provider answers with a ticker from which the z-score can be
    computed: the verdict of the sigma test, against 1.0, is logged, and the
    sink receives nothing. *)
Lemma price_deviation_end_to_end (c : val) (xs : list val) (cp : R) (past : list R) :
  lookup "close" d = Some c -> truthy c = true -> py_float c = Ok cp ->
  lookup "changes" d = Some (VList xs) -> mapM py_float xs = Ok past ->
  (2 <= List.length past)%nat -> bessel_stdev_spec past <> 0 ->
  let z := (cp - sample_mean_spec past) / bessel_stdev_spec past in
  exists w1 r,
    (url <- get_tickerv2_url symbol ;; get_price_deviation_zscore url symbol)
      (started currency "pricedev" deviation debug w) =
      (Ok (cp, z, sample_mean_spec past, bessel_stdev_spec past), w1) /\
    main currency "pricedev" deviation symbol debug w = (Ok tt, logged w1 [r]) /\
    (price_deviation_event r = Some Alert <-> z > 1 \/ z < - 1) /\
    (price_deviation_event r = Some Info <-> ~ (z > 1 \/ z < - 1)) /\
    sink_events (trace (logged w1 [r])) = sink_events (trace w).
Proof.
  intros Hc Htc Hcp Hxs Hpast Hlen Hnz z.
  destruct (returns_get_price_deviation_zscore symbol d ticker_answer c xs cp past
              Hc Htc Hcp Hxs Hpast Hlen Hnz
              (started currency "pricedev" deviation debug w)) as [w1 Hrun].
  destruct (get_price_deviation_run symbol 1.0 cp z _ _ _ w1 Hrun)
    as (r & Hmain & Ha & Hi).
  replace 1.0 with 1 in Ha, Hi by lra.
  exists w1, r.
  split; [exact Hrun | split; [ | split; [exact Ha | split; [exact Hi | ] ] ] ].
  - now rewrite main_pricedev.
  - rewrite <- (sink_events_started currency "pricedev" deviation debug w).
    pose proof (quiet_get_price_deviation symbol 1.0
                  (started currency "pricedev" deviation debug w)) as Hq.
    rewrite Hmain in Hq. exact Hq.
Qed.

End EndToEnd.

(** The provider answers with hourly candles and with candles of the last
    minutes, of non-zero volumes: the sink receives the verdict of the
    directional test. *)
Lemma volume_deviation_end_to_end (symbol : string) (currency debug : val)
    (deviation : R) (w : world)
    (hourly : list (list val * R)) (r : list val * R) (minutely : list (list val * R)) :
  (forall n, http n (get_candles_url symbol "1hr") =
             Some {| status_ok := true; body := Some (VList (map candle_row hourly)) |}) ->
  (forall n, http n (get_candles_url symbol "1m") =
             Some {| status_ok := true;
                     body := Some (VList (map candle_row (r :: minutely))) |}) ->
  hourly <> [] -> snd r <> 0 -> Rsum (map snd (firstn 24 hourly)) <> 0 ->
  let tv := Rsum (map snd (firstn 24 hourly)) in
  let p := ((snd r - tv) / tv) * 100 in
  let t := deviation * 100 in
  exists w1 w',
    get_volume_deviation_percent symbol (started currency "voldev" deviation debug w) =
      (Ok (VNum (snd r), tv, p), w1) /\
    main currency "voldev" deviation symbol debug w = (Ok tt, w') /\
    sink_events (trace w') =
      sink_events (trace w) ++
      [(if Rgtb p t then Alert else Info,
        [AVal (VStr "voldev"); AText (volume_deviation_message p (VNum (snd r)) tv t)])].
Proof.
  intros Hh Hm Hne Hr Ht tv p t.
  destruct (returns_get_volume_deviation_percent symbol hourly r minutely
              Hh Hm Hne Hr Ht (started currency "voldev" deviation debug w))
    as [w1 Hrun].
  destruct (get_volume_deviation_run symbol t _ _ _ _ w1 Hrun) as (w' & Hmain & Hs).
  exists w1, w'. split; [exact Hrun | split].
  - now rewrite main_voldev.
  - now rewrite Hs, sink_events_started.
Qed.

(** ** A failure inside one analysis *)

Lemma raises_bind {A B} (m : M world A) (k : A -> M world B) (a : A) (e : exn) :
  returns m a -> raises (k a) e -> raises (bind m k) e.
Proof.
  intros Hm Hk w. destruct (Hm w) as [w1 H1]. destruct (Hk w1) as [w2 H2].
  exists w2. now rewrite (bind_run m k w w1 a H1).
Qed.

Lemma raises_bind_first {A B} (m : M world A) (k : A -> M world B) (e : exn) :
  raises m e -> raises (bind m k) e.
Proof.
  intros Hm w. destruct (Hm w) as [w1 H1]. exists w1. unfold bind. now rewrite H1.
Qed.

Lemma raises_calculate_zscore (past : list R) (cur : R) :
  (List.length past < 2)%nat -> raises (calculate_zscore past cur) UnboundLocalError.
Proof.
  intros Hlen w. eexists. apply calculate_zscore_no_stdev.
  now apply stats_stdev_short.
Qed.

(** With fewer than two hourly changes in the ticker the price-deviation
    analysis ends in its [except] clause, and returns. *)
Lemma get_price_deviation_short_history (symbol : string) (d : list (string * val))
    (c : val) (xs : list val) (cp : R) (past : list R) (s : R) (w : world) :
  (forall n, http n (ticker_url symbol) =
             Some {| status_ok := true; body := Some (VDict d) |}) ->
  lookup "close" d = Some c -> truthy c = true -> py_float c = Ok cp ->
  lookup "changes" d = Some (VList xs) -> mapM py_float xs = Ok past ->
  (List.length past < 2)%nat ->
  exists w1,
    get_price_deviation symbol s w =
      (Ok tt,
       logged w1 [entry LException "Failed to get price deviation for: %s, message: %s"
                    [AVal (VStr symbol); AExn UnboundLocalError]]).
Proof.
  intros Hhttp Hc Ht Hcp Hxs Hpast Hlen.
  assert (Hbody : raises (get_price_deviation_zscore (ticker_url symbol) symbol)
                    UnboundLocalError).
  { unfold get_price_deviation_zscore.
    eapply raises_bind; [apply returns_log | ].
    eapply raises_bind; [apply returns_send_request; [apply Hhttp | reflexivity] | ].
    eapply raises_bind; [apply returns_lift | ].
    eapply raises_bind; [apply returns_log | ].
    eapply raises_bind; [eapply returns_get_current_price; eassumption | ].
    eapply raises_bind; [eapply returns_get_hourly_past_24_hours; eassumption | ].
    eapply raises_bind; [apply returns_log | ].
    apply raises_bind_first. now apply raises_calculate_zscore. }
  destruct (returns_get_tickerv2_url symbol w) as [w0 H0].
  destruct (Hbody w0) as [w1 H1].
  exists w1. unfold get_price_deviation.
  rewrite (bind_run _ _ w w0 _ H0). unfold try_except, bind.
  fold (ticker_url symbol). rewrite H1. cbn [Exception]. apply log_run.
Qed.

(** * Further properties of the program *)

(** ** The transport *)

Lemma send_request_unreachable (url : string) (w : world) :
  http (nreq w) url = None ->
  send_request url w =
    (Raise UnboundLocalError,
     logged (sent w)
       [entry LInfo "Sending request to endpoint: %s." [AVal (VStr url)];
        entry LException "Requests exception: %s" [AExn RequestException]]).
Proof.
  intros Hdown.
  unfold send_request, with_frame, try_except, bind, zoom, store, load, requests_get.
  simpl. rewrite Hdown. simpl.
  unfold logged, sent. simpl. rewrite <- app_assoc. reflexivity.
Qed.

Lemma send_request_answered (url : string) (r : response) (w : world) :
  http (nreq w) url = Some r ->
  send_request url w =
    (Ok r,
     logged (sent w)
       ([entry LInfo "Sending request to endpoint: %s." [AVal (VStr url)];
         entry LDebug "Response from api: %s" [AResp r]]
        ++ if status_ok r then []
           else [entry LException "Requests exception: %s" [AExn RequestException]])).
Proof.
  intros Hget.
  unfold send_request, with_frame, try_except, bind, zoom, store, load, requests_get,
    raise_for_status.
  simpl. rewrite Hget. simpl.
  destruct (status_ok r); simpl; unfold logged, sent; simpl;
    rewrite <- ?app_assoc; reflexivity.
Qed.

(** X1. When [requests.get] raises, [send_request] logs the exception and
    then fails at its [return]: the local [response] was never bound, so
    the caller receives [UnboundLocalError], not the transport error. One
    request has been counted. *)
Theorem send_request_transport_failure (url : string) (w : world) :
  http (nreq w) url = None ->
  send_request url w =
    (Raise UnboundLocalError,
     logged (sent w)
       [entry LInfo "Sending request to endpoint: %s." [AVal (VStr url)];
        entry LException "Requests exception: %s" [AExn RequestException]]).
Proof. apply send_request_unreachable. Qed.

(** X2. When [requests.get] returns a response, [send_request] returns it
    whatever its status: an error status is logged as an exception and then
    ignored, so the body of an error answer goes on to the analysis. *)
Theorem send_request_returns_any_response (url : string) (r : response) (w : world) :
  http (nreq w) url = Some r ->
  send_request url w =
    (Ok r,
     logged (sent w)
       ([entry LInfo "Sending request to endpoint: %s." [AVal (VStr url)];
         entry LDebug "Response from api: %s" [AResp r]]
        ++ if status_ok r then []
           else [entry LException "Requests exception: %s" [AExn RequestException]])).
Proof. apply send_request_answered. Qed.

(** ** Extraction *)

Lemma get_current_price_dict (d : list (string * val)) (w : world) :
  fst (get_current_price (VDict d) w) =
    match lookup "close" d with
    | Some c => if truthy c then py_float c else Raise ValueError
    | None => Raise ValueError
    end.
Proof.
  unfold get_current_price, bind, lift, py_get, py_subscript. simpl.
  destruct (lookup "close" d) as [c | ]; simpl; [ | reflexivity].
  destruct (truthy c); reflexivity.
Qed.

Lemma get_open_price_dict (d : list (string * val)) (w : world) :
  fst (get_open_price (VDict d) w) =
    match lookup "open" d with
    | Some c => if truthy c then py_float c else Raise ValueError
    | None => Raise ValueError
    end.
Proof.
  unfold get_open_price, bind, lift, py_get, py_subscript. simpl.
  destruct (lookup "open" d) as [c | ]; simpl; [ | reflexivity].
  destruct (truthy c); reflexivity.
Qed.

Lemma nonempty_string_true (s : string) : nonempty_string s = true <-> s <> "".
Proof. destruct s; simpl; split; intros; congruence. Qed.

(** X3. The price fields are validated by truth value, before [float] is
    applied. A field that is absent, [None], the number zero or the empty
    string raises [ValueError]; a non-zero number is returned as it is; a
    non-empty string is handed to [float], so the string "0" is accepted
    where the number 0 is not. The same holds of the open price. *)
Theorem price_fields_validation (d : list (string * val)) (w : world) :
  (forall (get : val -> M world R) (key : string),
     (get = get_current_price /\ key = "close") \/
     (get = get_open_price /\ key = "open") ->
     (lookup key d = None \/ lookup key d = Some VNone \/
      lookup key d = Some (VNum 0) \/ lookup key d = Some (VStr "") ->
      fst (get (VDict d) w) = Raise ValueError) /\
     (forall r, lookup key d = Some (VNum r) -> r <> 0 ->
                fst (get (VDict d) w) = Ok r) /\
     (forall s, lookup key d = Some (VStr s) -> s <> "" ->
                fst (get (VDict d) w) =
                  match float_of_string s with
                  | Some r => Ok r
                  | None => Raise ValueError
                  end)).
Proof.
  intros get key Hget.
  assert (Hrun : fst (get (VDict d) w) =
                 match lookup key d with
                 | Some c => if truthy c then py_float c else Raise ValueError
                 | None => Raise ValueError
                 end).
  { destruct Hget as [[-> ->] | [-> ->]];
      [apply get_current_price_dict | apply get_open_price_dict]. }
  rewrite Hrun. split; [ | split].
  - intros [H | [H | [H | H]]]; rewrite H; try reflexivity.
    simpl. assert (Hz : Rnonzero 0 = false) by now apply Rnonzero_false.
    now rewrite Hz.
  - intros r H Hr. rewrite H. simpl. apply Rnonzero_true in Hr. now rewrite Hr.
  - intros s H Hs. rewrite H. simpl. apply nonempty_string_true in Hs.
    now rewrite Hs.
Qed.

(** A response that is not a JSON object has no [get]. *)
Lemma get_current_price_not_dict (l : list val) (w : world) :
  fst (get_current_price (VList l) w) = Raise AttributeError.
Proof. reflexivity. Qed.

Lemma mapM_Forall2 {A B} (f : A -> result B) (l : list A) (l' : list B) :
  mapM f l = Ok l' <-> Forall2 (fun a b => f a = Ok b) l l'.
Proof.
  revert l'. induction l as [ | a l IH]; intros l'; simpl.
  - split.
    + intros H. injection H as <-. constructor.
    + intros H. inversion H. reflexivity.
  - split.
    + unfold rbind. destruct (f a) as [b | e] eqn:Hfa; [ | discriminate].
      destruct (mapM f l) as [bs | e] eqn:Hl; [ | discriminate].
      intros H. injection H as <-. constructor; [assumption | now apply IH].
    + intros H. inversion H as [ | a' b l0 bs Hfa Hrest]; subst.
      apply IH in Hrest. unfold rbind. now rewrite Hfa, Hrest.
Qed.

Lemma mapM_app_raise {A B} (f : A -> result B) (pre : list A) (x : A)
    (post : list A) (bs : list B) (e : exn) :
  mapM f pre = Ok bs -> f x = Raise e -> mapM f (pre ++ x :: post) = Raise e.
Proof.
  revert bs. induction pre as [ | a pre IH]; intros bs Hpre Hx; simpl.
  - unfold rbind. now rewrite Hx.
  - simpl in Hpre. unfold rbind in *. destruct (f a) as [b | ]; [ | discriminate].
    destruct (mapM f pre) as [bs0 | ] eqn:Hp; [ | discriminate].
    now rewrite (IH bs0 eq_refl Hx).
Qed.

Lemma mapM_raise_inv {A B} (f : A -> result B) (l : list A) (e : exn) :
  mapM f l = Raise e ->
  exists pre x post bs,
    l = pre ++ x :: post /\ mapM f pre = Ok bs /\ f x = Raise e.
Proof.
  induction l as [ | a l IH]; simpl; [discriminate | ].
  unfold rbind. destruct (f a) as [b | e'] eqn:Hfa.
  - destruct (mapM f l) as [bs | e'] eqn:Hl; [discriminate | ].
    intros H. injection H as ->.
    destruct (IH eq_refl) as (pre & x & post & bs & -> & Hpre & Hx).
    exists (a :: pre), x, post, (b :: bs). repeat split; try assumption.
    simpl. unfold rbind. now rewrite Hfa, Hpre.
  - intros H. injection H as ->. exists [], a, l, []. now repeat split.
Qed.

Lemma mapM_raise {A B} (f : A -> result B) (l : list A) (e : exn) :
  mapM f l = Raise e <->
  exists pre x post bs,
    l = pre ++ x :: post /\ mapM f pre = Ok bs /\ f x = Raise e.
Proof.
  split; [apply mapM_raise_inv | ].
  intros (pre & x & post & bs & -> & Hpre & Hx).
  now apply mapM_app_raise with bs.
Qed.

Lemma get_hourly_past_24_hours_list (d : list (string * val)) (xs : list val)
    (w : world) :
  lookup "changes" d = Some (VList xs) ->
  get_hourly_past_24_hours (VDict d) w = (mapM py_float xs, w).
Proof.
  intros H. unfold get_hourly_past_24_hours, bind, lift, py_get, py_iter.
  simpl. rewrite H. simpl. destruct (mapM py_float xs); reflexivity.
Qed.

(** X4. The hourly changes are parsed element by element, in order and
    without logging: the function returns [past] exactly when every element
    of the "changes" list parses to the float at the same position of
    [past], and it raises exactly the exception of the first element that
    [float] rejects. *)
Theorem get_hourly_past_24_hours_elementwise (d : list (string * val))
    (xs : list val) (w : world) :
  lookup "changes" d = Some (VList xs) ->
  snd (get_hourly_past_24_hours (VDict d) w) = w /\
  (forall past,
     fst (get_hourly_past_24_hours (VDict d) w) = Ok past <->
     Forall2 (fun x r => py_float x = Ok r) xs past) /\
  (forall e,
     fst (get_hourly_past_24_hours (VDict d) w) = Raise e <->
     exists pre x post rs,
       xs = pre ++ x :: post /\ mapM py_float pre = Ok rs /\ py_float x = Raise e).
Proof.
  intros H. rewrite (get_hourly_past_24_hours_list d xs w H). cbn [fst snd].
  split; [reflexivity | split].
  - intros past. apply mapM_Forall2.
  - intros e. apply mapM_raise.
Qed.

(** X5. A ticker without the "changes" field makes the comprehension iterate
    over [None]: the function raises [TypeError], not [ValueError]. *)
Theorem get_hourly_past_24_hours_missing (d : list (string * val)) (w : world) :
  lookup "changes" d = None ->
  get_hourly_past_24_hours (VDict d) w = (Raise TypeError, w).
Proof.
  intros H. unfold get_hourly_past_24_hours, bind, lift, py_get, py_iter.
  simpl. rewrite H. reflexivity.
Qed.

Lemma index_last (p : list val) (x : val) :
  rbind (py_len (VList (p ++ [x]))) (fun n => py_getitem (VList (p ++ [x])) (n - 1)) =
  Ok x.
Proof.
  unfold py_len, py_getitem, index_seq, rbind.
  rewrite length_app. cbn [List.length]. rewrite Nat.add_1_r.
  rewrite position_last, nth_error_app2 by lia.
  now rewrite Nat.sub_diag.
Qed.

Lemma truthy_snoc (p : list val) (x : val) : truthy (VList (p ++ [x])) = true.
Proof. destruct p; reflexivity. Qed.

(** X6. The volume of the last minute is the last field of the first row,
    returned as the provider sent it (no conversion to [float]); the other
    rows are not looked at. An empty response and an empty first row raise
    [ValueError]. *)
Theorem get_current_volume_first_row (p : list val) (x : val) (rest : list val)
    (w : world) :
  get_current_volume_1m_interval (VList (VList (p ++ [x]) :: rest)) w = (Ok x, w) /\
  fst (get_current_volume_1m_interval (VList []) w) = Raise ValueError /\
  fst (get_current_volume_1m_interval (VList (VList [] :: rest)) w) = Raise ValueError.
Proof.
  split; [ | split].
  - unfold get_current_volume_1m_interval. cbn [truthy].
    rewrite (bind_run _ _ w w (VList (p ++ [x])))
      by (unfold lift; now rewrite py_getitem_first).
    rewrite truthy_snoc, bind_lift, index_last. reflexivity.
  - reflexivity.
  - unfold get_current_volume_1m_interval. cbn [truthy].
    rewrite (bind_run _ _ w w (VList []))
      by (unfold lift; now rewrite py_getitem_first).
    reflexivity.
Qed.

Lemma firstn_24_app (l1 l2 : list val) :
  List.length l1 = 24%nat -> firstn 24 (l1 ++ l2) = l1.
Proof.
  intros H. rewrite firstn_app, H, Nat.sub_diag, firstn_O, app_nil_r.
  rewrite <- H. apply firstn_all.
Qed.

Lemma get_total_volume_list (x : val) (l : list val) (w : world) :
  fst (get_total_volume_past_24_hours (VList (x :: l)) w) =
    rbind (mapM (fun hour => rbind (py_len hour) (fun n => py_getitem hour (n - 1)))
             (firstn 24 (x :: l)))
      fsum.
Proof.
  unfold get_total_volume_past_24_hours, bind, lift, py_slice_0_24, py_iter.
  cbn [truthy]. rewrite log_run.
  change (firstn 24 (x :: l)) with (x :: firstn 23 l). cbn [truthy].
  destruct (mapM _ (x :: firstn 23 l)) as [vs | e]; [ | reflexivity].
  unfold rbind. destruct (fsum vs); reflexivity.
Qed.

Lemma floats_are_numbers (rows : list (list val * R)) :
  mapM py_num (map (fun r => VNum (snd r)) rows) = Ok (map snd rows).
Proof.
  induction rows as [ | r rows IH]; [reflexivity | ].
  simpl. simpl in IH. rewrite IH. reflexivity.
Qed.

(** X7. Only the first 24 rows count towards the 24-hour volume: whatever
    follows them in the response, even rows that are not candles, changes
    nothing. Within the first 24 rows an empty row raises [IndexError], and a
    row whose last field is a string raises [TypeError]: neither is reported
    as the [ValueError] of an empty response. *)
Theorem get_total_volume_window (rows : list (list val * R)) (w : world) :
  (forall junk : list val,
     List.length rows = 24%nat ->
     fst (get_total_volume_past_24_hours (VList (map candle_row rows ++ junk)) w) =
       Ok (Rsum (map snd rows))) /\
  (forall post : list val,
     (List.length rows < 24)%nat ->
     fst (get_total_volume_past_24_hours
            (VList (map candle_row rows ++ VList [] :: post)) w) = Raise IndexError) /\
  (forall (fields : list val) (s : string) (post : list (list val * R)),
     (List.length rows < 24)%nat ->
     fst (get_total_volume_past_24_hours
            (VList (map candle_row rows ++ VList (fields ++ [VStr s])
                      :: map candle_row post)) w) = Raise TypeError).
Proof.
  split; [ | split].
  - intros junk Hlen.
    destruct rows as [ | r rows0] eqn:Hrows; [discriminate | ]. rewrite <- Hrows in *.
    assert (Hform : exists x l, map candle_row rows ++ junk = x :: l)
      by (rewrite Hrows; simpl; eauto).
    destruct Hform as (x & l & Hform). rewrite Hform, get_total_volume_list.
    rewrite <- Hform, firstn_24_app by (now rewrite length_map).
    rewrite last_fields. unfold rbind. rewrite fsum_floats. reflexivity.
  - intros post Hlen.
    assert (Hform : exists x l, map candle_row rows ++ VList [] :: post = x :: l)
      by (destruct rows; simpl; eauto).
    destruct Hform as (x & l & Hform). rewrite Hform, get_total_volume_list.
    rewrite <- Hform, firstn_app, length_map.
    rewrite firstn_all2 by (rewrite length_map; lia).
    destruct (24 - List.length rows)%nat as [ | k] eqn:Hk; [lia | ].
    cbn [firstn].
    rewrite (mapM_app_raise _ _ _ _ _ IndexError (last_fields rows)); reflexivity.
  - intros fields s post Hlen.
    assert (Hform : exists x l,
               map candle_row rows ++ VList (fields ++ [VStr s]) :: map candle_row post
               = x :: l)
      by (destruct rows; simpl; eauto).
    destruct Hform as (x & l & Hform). rewrite Hform, get_total_volume_list.
    rewrite <- Hform, firstn_app, length_map.
    rewrite firstn_all2 by (rewrite length_map; lia).
    destruct (24 - List.length rows)%nat as [ | k] eqn:Hk; [lia | ].
    cbn [firstn]. rewrite firstn_map.
    assert (Hidx :
      mapM (fun hour => rbind (py_len hour) (fun n => py_getitem hour (n - 1)))
        (map candle_row rows ++ VList (fields ++ [VStr s])
           :: map candle_row (firstn k post)) =
      Ok (map (fun r => VNum (snd r)) rows ++ VStr s
            :: map (fun r => VNum (snd r)) (firstn k post))).
    { apply mapM_Forall2. apply Forall2_app.
      - apply mapM_Forall2, last_fields.
      - constructor; [apply index_last | apply mapM_Forall2, last_fields]. }
    rewrite Hidx. unfold rbind, fsum.
    assert (Hnum : mapM py_num
                     (map (fun r => VNum (snd r)) rows ++ VStr s
                        :: map (fun r => VNum (snd r)) (firstn k post)) =
                   Raise TypeError).
    { apply mapM_app_raise with (map snd rows); [ | reflexivity].
      apply floats_are_numbers. }
    rewrite Hnum. reflexivity.
Qed.

(** ** The sink *)

(** X8. [send_alert] and [send_info] validate their arguments by truth
    value. With a non-empty kind and a non-empty message they return and the
    sink emits exactly one event, of the severity of the function, carrying
    the kind and the message; with an empty kind or an empty message they
    raise [ValueError] and the sink emits nothing. *)
Theorem sink_validation (alert_type : string) (message : text) (w : world) :
  (alert_type <> "" -> truthy_text message = true ->
   (exists w',
      send_alert alert_type message w = (Ok tt, w') /\
      sink_events (trace w') =
        sink_events (trace w) ++ [(Alert, [AVal (VStr alert_type); AText message])]) /\
   (exists w',
      send_info alert_type message w = (Ok tt, w') /\
      sink_events (trace w') =
        sink_events (trace w) ++ [(Info, [AVal (VStr alert_type); AText message])])) /\
  (alert_type = "" \/ truthy_text message = false ->
   (fst (send_alert alert_type message w) = Raise ValueError /\
    sink_events (trace (snd (send_alert alert_type message w))) =
      sink_events (trace w)) /\
   (fst (send_info alert_type message w) = Raise ValueError /\
    sink_events (trace (snd (send_info alert_type message w))) =
      sink_events (trace w))).
Proof.
  split.
  - intros Ha Hm. apply nonempty_string_true in Ha.
    split; eexists; split.
    + now apply send_alert_run.
    + apply sink_events_alert.
    + now apply send_info_run.
    + apply sink_events_info.
  - intros H.
    assert (Hc : nonempty_string alert_type && truthy_text message = false).
    { destruct H as [-> | ->]; [reflexivity | apply andb_false_r]. }
    unfold send_alert, send_info, bind, log, raise. simpl. rewrite Hc. simpl.
    rewrite !sink_events_app. simpl. rewrite !app_nil_r. auto.
Qed.

(** ** Percentage change *)

Lemma calculate_percentage_change_numbers (f i : R) (w : world) :
  fst (calculate_percentage_change (VNum f) (VNum i) w) =
    if Rnonzero f && Rnonzero i then Ok (((f - i) / i) * 100) else Raise ValueError.
Proof.
  unfold calculate_percentage_change, bind, lift, ret, py_truediv. simpl.
  destruct (Rnonzero f); simpl; [ | reflexivity].
  destruct (Rnonzero i) eqn:Hi; simpl; reflexivity.
Qed.

(** X9. The sign of the percentage change. When the function returns [p]
    for the numbers [final] and [initial], [p] is 0 exactly when the two are
    equal; against a positive [initial], [p] is positive exactly when [final]
    is above it; against a negative [initial] the sign is reversed: [p] is
    positive exactly when [final] is below it. *)
Theorem calculate_percentage_change_sign (f i p : R) (w : world) :
  fst (calculate_percentage_change (VNum f) (VNum i) w) = Ok p ->
  (p = 0 <-> f = i) /\
  (0 < i -> (0 < p <-> i < f)) /\
  (i < 0 -> (0 < p <-> f < i)).
Proof.
  rewrite calculate_percentage_change_numbers.
  destruct (Rnonzero f) eqn:Hf; [ | discriminate].
  destruct (Rnonzero i) eqn:Hi; [ | discriminate].
  apply Rnonzero_true in Hf, Hi. cbn [andb]. intros H. injection H as <-.
  assert (Hq : (f - i) / i * i = f - i) by (field; assumption).
  split; [ | split].
  - split; intros H0.
    + assert (Hz : (f - i) / i = 0) by lra. rewrite Hz in Hq. lra.
    + subst f. unfold Rdiv. replace (i - i) with 0 by lra. lra.
  - intros Hpos. split; intros H0; nra.
  - intros Hneg. split; intros H0; nra.
Qed.

(** X10. Operands that are not numbers. The guard is the truth value of the
    two operands, so an empty string or [None] raises [ValueError] like a
    zero; a non-empty string passes the guard and fails in the subtraction
    with [TypeError]; [True] counts as the number 1. *)
Theorem calculate_percentage_change_operands (final initial : val) (i : R)
    (s : string) (w : world) :
  (truthy final = false \/ truthy initial = false ->
   fst (calculate_percentage_change final initial w) = Raise ValueError) /\
  (s <> "" -> i <> 0 ->
   fst (calculate_percentage_change (VStr s) (VNum i) w) = Raise TypeError /\
   fst (calculate_percentage_change (VNum i) (VStr s) w) = Raise TypeError) /\
  (i <> 0 ->
   fst (calculate_percentage_change (VBool true) (VNum i) w) =
     Ok (((1 - i) / i) * 100)).
Proof.
  split; [ | split].
  - intros H. unfold calculate_percentage_change, bind. rewrite log_run.
    assert (Hc : truthy final && truthy initial = false)
      by (destruct H as [-> | ->]; [reflexivity | apply andb_false_r]).
    rewrite Hc. reflexivity.
  - intros Hs Hi. apply nonempty_string_true in Hs. apply Rnonzero_true in Hi.
    unfold calculate_percentage_change, bind, lift. simpl. rewrite Hs, Hi.
    split; reflexivity.
  - intros Hi. apply Rnonzero_true in Hi.
    unfold calculate_percentage_change, bind, lift, ret, py_truediv. simpl.
    rewrite Hi. simpl. rewrite ?Hi. reflexivity.
Qed.

(** ** The z-score *)

Lemma bessel_stdev_nonneg (past : list R) : 0 <= bessel_stdev_spec past.
Proof. apply sqrt_pos. Qed.

(** X11. The sign of a returned z-score. The deviation that comes with it
    is strictly positive, so the z-score is 0 exactly when the current price
    is the mean, and positive exactly when the current price is above the
    mean. *)
Theorem calculate_zscore_sign (past : list R) (cur z m s : R) (w : world) :
  fst (calculate_zscore past cur w) = Ok (z, m, s) ->
  0 < s /\
  (z = 0 <-> cur = m) /\
  (0 < z <-> m < cur).
Proof.
  intros H.
  destruct (calculate_zscore_cases past cur w)
    as [(sd & mu & Hsd & Hmu & Hnz & Hrun) | Hrun]; rewrite Hrun in H;
    [ | discriminate].
  injection H as <- <- <-.
  assert (Hpos : 0 < sd).
  { pose proof (stats_stdev_ok_length past sd Hsd) as Hlen.
    rewrite stats_stdev_spec in Hsd by assumption. injection Hsd as <-.
    pose proof (bessel_stdev_nonneg past). lra. }
  assert (Hz : (cur - mu) / sd * sd = cur - mu) by (field; lra).
  split; [assumption | ].
  repeat split; intros H0.
  - rewrite H0 in Hz. lra.
  - subst cur. unfold Rdiv. replace (mu - mu) with 0 by lra. lra.
  - nra.
  - apply Rmult_lt_reg_r with sd; [assumption | ]. rewrite Hz. lra.
Qed.

(** ** What the analyses leave alone *)

Section Keeps.

Context {St X : Type} (f : St -> X).

Lemma keeps_ret {A} (a : A) : keeps f (ret a).
Proof. intros s. reflexivity. Qed.

Lemma keeps_raise {A} (e : exn) : keeps f (@raise St A e).
Proof. intros s. reflexivity. Qed.

Lemma keeps_lift {A} (r : result A) : keeps f (lift r).
Proof. intros s. reflexivity. Qed.

Lemma keeps_bind {A B} (m : M St A) (k : A -> M St B) :
  keeps f m -> (forall a, keeps f (k a)) -> keeps f (bind m k).
Proof.
  intros Hm Hk s. unfold bind. specialize (Hm s).
  destruct (m s) as [[a | e] s']; simpl in *.
  - now rewrite Hk.
  - assumption.
Qed.

Lemma keeps_try_except {A} (body : M St A) (cls : exn -> bool)
    (handler : exn -> M St A) :
  keeps f body -> (forall e, keeps f (handler e)) ->
  keeps f (try_except body cls handler).
Proof.
  intros Hb Hh s. unfold try_except. specialize (Hb s).
  destruct (body s) as [[a | e] s']; simpl in *.
  - assumption.
  - destruct (cls e); simpl; [now rewrite Hh | assumption].
Qed.

End Keeps.

(** An observation of the world that logging does not change, and that
    sending a request does not change, is kept by the program. *)
Section Stable.

Context {X : Type} (f : world -> X).

Hypothesis f_log : forall c fm a w, f (snd (log c fm a w)) = f w.
Hypothesis f_get : forall url w, f (snd (requests_get url w)) = f w.

Lemma keeps_log (c : logcall) (fm : string) (a : list logarg) : keeps f (log c fm a).
Proof. intros w. apply f_log. Qed.

Lemma keeps_requests_get (url : string) : keeps f (requests_get url).
Proof. intros w. apply f_get. Qed.

Lemma keeps_zoom {L A} (m : M world A) :
  keeps f m -> keeps (fun s : world * L => f (fst s)) (zoom m).
Proof.
  intros H s. unfold zoom. specialize (H (fst s)).
  destruct (m (fst s)) as [r w']. assumption.
Qed.

Lemma keeps_with_frame {L A} (l0 : L) (m : M (world * L) A) :
  keeps (fun s : world * L => f (fst s)) m -> keeps f (with_frame l0 m).
Proof.
  intros H w. unfold with_frame. specialize (H (w, l0)).
  destruct (m (w, l0)) as [r s']. assumption.
Qed.

Lemma keeps_store {L} (upd : L -> L) :
  keeps (fun s : world * L => f (fst s)) (store upd).
Proof. intros s. reflexivity. Qed.

Lemma keeps_load {L A} (get : L -> option A) :
  keeps (fun s : world * L => f (fst s)) (load get).
Proof. intros s. unfold load. destruct (get (snd s)); reflexivity. Qed.

Create HintDb keeps.

#[local] Hint Resolve keeps_log keeps_store keeps_load : keeps.

Ltac keeps_step :=
  lazymatch goal with
  | |- keeps _ (bind _ _) => apply keeps_bind; [ | intros ]
  | |- keeps _ (try_except _ _ _) => apply keeps_try_except; [ | intros ]
  | |- keeps _ (ret _) => apply keeps_ret
  | |- keeps _ (raise _) => apply keeps_raise
  | |- keeps _ (lift _) => apply keeps_lift
  | |- keeps _ (zoom _) => apply keeps_zoom
  | |- keeps _ (with_frame _ _) => apply keeps_with_frame
  | |- keeps _ (if ?b then _ else _) => destruct b
  | |- keeps _ (match ?x with _ => _ end) => destruct x
  | |- _ => solve [auto with keeps]
  end.

Ltac keeps_tac := cbv zeta; repeat keeps_step.

Lemma keeps_calculate_percentage_change (final initial : val) :
  keeps f (calculate_percentage_change final initial).
Proof. unfold calculate_percentage_change. keeps_tac. Qed.

Lemma keeps_calculate_zscore (past : list R) (cur : R) :
  keeps f (calculate_zscore past cur).
Proof. unfold calculate_zscore. keeps_tac. Qed.

Lemma keeps_get_tickerv2_url (symbol : string) : keeps f (get_tickerv2_url symbol).
Proof. unfold get_tickerv2_url. keeps_tac. Qed.

Lemma keeps_get_current_volume_1m_interval (response : val) :
  keeps f (get_current_volume_1m_interval response).
Proof. unfold get_current_volume_1m_interval. keeps_tac. Qed.

Lemma keeps_get_total_volume_past_24_hours (response : val) :
  keeps f (get_total_volume_past_24_hours response).
Proof. unfold get_total_volume_past_24_hours. keeps_tac. Qed.

Lemma keeps_send_alert (alert_type : string) (message : text) :
  keeps f (send_alert alert_type message).
Proof. unfold send_alert. keeps_tac. Qed.

Lemma keeps_send_info (alert_type : string) (message : text) :
  keeps f (send_info alert_type message).
Proof. unfold send_info. keeps_tac. Qed.

Lemma keeps_get_current_price (response : val) : keeps f (get_current_price response).
Proof. unfold get_current_price. keeps_tac. Qed.

Lemma keeps_get_open_price (response : val) : keeps f (get_open_price response).
Proof. unfold get_open_price. keeps_tac. Qed.

Lemma keeps_get_hourly_past_24_hours (response : val) :
  keeps f (get_hourly_past_24_hours response).
Proof. unfold get_hourly_past_24_hours. keeps_tac. Qed.

#[local] Hint Resolve keeps_calculate_percentage_change keeps_calculate_zscore
  keeps_get_tickerv2_url keeps_get_current_volume_1m_interval
  keeps_get_total_volume_past_24_hours keeps_send_alert keeps_send_info
  keeps_get_current_price keeps_get_open_price keeps_get_hourly_past_24_hours : keeps.

Lemma keeps_get_price_deviation_classify (cp z m sd s : R) :
  keeps f (get_price_deviation_classify cp z m sd s).
Proof. unfold get_price_deviation_classify. keeps_tac. Qed.

Lemma keeps_get_price_change_classify (cp op p t : R) :
  keeps f (get_price_change_classify cp op p t).
Proof. unfold get_price_change_classify. keeps_tac. Qed.

Lemma keeps_get_volume_deviation_classify (cv : val) (tv p t : R) :
  keeps f (get_volume_deviation_classify cv tv p t).
Proof. unfold get_volume_deviation_classify. keeps_tac. Qed.

Lemma keeps_raise_for_status (r : response) : keeps f (raise_for_status r).
Proof. unfold raise_for_status. keeps_tac. Qed.

#[local] Hint Resolve keeps_get_price_deviation_classify
  keeps_get_price_change_classify keeps_get_volume_deviation_classify
  keeps_raise_for_status keeps_requests_get : keeps.

Lemma keeps_send_request (url : string) : keeps f (send_request url).
Proof. unfold send_request. keeps_tac. Qed.

#[local] Hint Resolve keeps_send_request : keeps.

Lemma keeps_get_price_deviation (symbol : string) (stdev : R) :
  keeps f (get_price_deviation symbol stdev).
Proof. unfold get_price_deviation, get_price_deviation_zscore. keeps_tac. Qed.

Lemma keeps_get_price_change (symbol : string) (threshold : R) :
  keeps f (get_price_change symbol threshold).
Proof. unfold get_price_change, get_price_change_percent. keeps_tac. Qed.

Lemma keeps_get_volume_deviation (symbol : string) (threshold : R) :
  keeps f (get_volume_deviation symbol threshold).
Proof. unfold get_volume_deviation, get_volume_deviation_percent. keeps_tac. Qed.

End Stable.

(** ** Requests *)

Lemma nreq_log (c : logcall) (fm : string) (a : list logarg) (w : world) :
  nreq (snd (log c fm a w)) = nreq w.
Proof. reflexivity. Qed.

Lemma requests_keeps {A} (m : M world A) : keeps nreq m -> requests_between m 0 0.
Proof. intros H w. rewrite H. lia. Qed.

Lemma requests_send_request (url : string) : requests_between (send_request url) 1 1.
Proof.
  intros w. destruct (http (nreq w) url) as [r | ] eqn:Hget.
  - rewrite (send_request_answered url r w Hget). simpl. lia.
  - rewrite (send_request_unreachable url w Hget). simpl. lia.
Qed.

Lemma requests_bind {A B} (m : M world A) (k : A -> M world B) (a a' b b' : nat) :
  requests_between m a a' -> (forall x, requests_between (k x) b b') ->
  requests_between (bind m k) a (a' + b').
Proof.
  intros Hm Hk w. unfold bind. specialize (Hm w).
  destruct (m w) as [[x | e] w1]; simpl in *; [ | lia].
  specialize (Hk x w1). lia.
Qed.

Lemma requests_bind_total {A B} (m : M world A) (k : A -> M world B)
    (a a' b b' : nat) :
  total m -> requests_between m a a' -> (forall x, requests_between (k x) b b') ->
  requests_between (bind m k) (a + b) (a' + b').
Proof.
  intros Ht Hm Hk w. unfold bind. specialize (Hm w).
  destruct (Ht w) as (x & w1 & Hrun). rewrite Hrun in *. simpl in *.
  specialize (Hk x w1). lia.
Qed.

Lemma requests_try_except {A} (body : M world A) (cls : exn -> bool)
    (handler : exn -> M world A) (a a' : nat) :
  requests_between body a a' -> (forall e, keeps nreq (handler e)) ->
  requests_between (try_except body cls handler) a a'.
Proof.
  intros Hb Hh w. unfold try_except. specialize (Hb w).
  destruct (body w) as [[x | e] w1]; simpl in *; [lia | ].
  destruct (cls e); simpl; [rewrite Hh | ]; lia.
Qed.

Lemma total_log (c : logcall) (fm : string) (a : list logarg) : total (log c fm a).
Proof. intros w. eexists _, _. apply log_run. Qed.

Lemma total_get_tickerv2_url (symbol : string) : total (get_tickerv2_url symbol).
Proof. intros w. eexists _, _. reflexivity. Qed.

Lemma total_setup_logging (debug : val) : total (setup_logging debug).
Proof. intros w. eexists _, _. reflexivity. Qed.

Lemma requests_get_price_deviation (symbol : string) (stdev : R) :
  requests_between (get_price_deviation symbol stdev) 1 1.
Proof.
  unfold get_price_deviation.
  apply (requests_bind_total _ _ 0 0 1 1);
    [apply total_get_tickerv2_url
    | apply requests_keeps, keeps_get_tickerv2_url, nreq_log | ].
  intros url. apply requests_try_except; [ | intros e; apply keeps_log, nreq_log].
  unfold get_price_deviation_zscore.
  apply (requests_bind _ _ 1 1 0 0);
    [ | intros [[[cp z] m] sd];
        apply requests_keeps, keeps_get_price_deviation_classify, nreq_log].
  apply (requests_bind_total _ _ 0 0 1 1);
    [apply total_log | apply requests_keeps, keeps_log, nreq_log | intros _].
  apply (requests_bind _ _ 1 1 0 0); [apply requests_send_request | intros r].
  apply requests_keeps.
  repeat first
    [ exact nreq_log
    | apply keeps_get_current_price | apply keeps_get_hourly_past_24_hours
    | apply keeps_calculate_zscore
    | apply keeps_lift | apply keeps_ret | apply keeps_log
    | apply keeps_bind; [ | intros ]
    | match goal with |- keeps _ (match ?x with _ => _ end) => destruct x end ].
Qed.

Lemma requests_get_price_change (symbol : string) (threshold : R) :
  requests_between (get_price_change symbol threshold) 1 1.
Proof.
  unfold get_price_change.
  apply requests_try_except; [ | intros e; apply keeps_log, nreq_log].
  apply (requests_bind _ _ 1 1 0 0);
    [ | intros [[cp op] p];
        apply requests_keeps, keeps_get_price_change_classify, nreq_log].
  unfold get_price_change_percent.
  apply (requests_bind_total _ _ 0 0 1 1);
    [apply total_log | apply requests_keeps, keeps_log, nreq_log | intros _].
  apply (requests_bind_total _ _ 0 0 1 1);
    [apply total_get_tickerv2_url
    | apply requests_keeps, keeps_get_tickerv2_url, nreq_log | intros url].
  apply (requests_bind _ _ 1 1 0 0); [apply requests_send_request | intros r].
  apply requests_keeps.
  repeat first
    [ exact nreq_log
    | apply keeps_get_current_price | apply keeps_get_open_price
    | apply keeps_calculate_percentage_change
    | apply keeps_lift | apply keeps_ret | apply keeps_log
    | apply keeps_bind; [ | intros ] ].
Qed.

Lemma requests_get_volume_deviation (symbol : string) (threshold : R) :
  requests_between (get_volume_deviation symbol threshold) 1 2.
Proof.
  unfold get_volume_deviation.
  apply requests_try_except; [ | intros e; apply keeps_log, nreq_log].
  apply (requests_bind _ _ 1 2 0 0);
    [ | intros [[cv tv] p];
        apply requests_keeps, keeps_get_volume_deviation_classify, nreq_log].
  unfold get_volume_deviation_percent. cbv zeta.
  apply (requests_bind _ _ 1 1 0 1); [apply requests_send_request | intros r].
  apply (requests_bind _ _ 0 0 0 1);
    [apply requests_keeps, keeps_lift | intros j].
  apply (requests_bind _ _ 0 0 0 1);
    [apply requests_keeps, keeps_get_total_volume_past_24_hours, nreq_log
    | intros tv].
  apply (requests_bind _ _ 0 1 0 0);
    [intros w; pose proof (requests_send_request (get_candles_url symbol "1m") w); lia
    | intros r2].
  apply requests_keeps.
  repeat first
    [ exact nreq_log
    | apply keeps_get_current_volume_1m_interval
    | apply keeps_calculate_percentage_change
    | apply keeps_lift | apply keeps_ret
    | apply keeps_bind; [ | intros ] ].
Qed.

(** X12. How many requests a run sends, on every path, failures included:
    the price-deviation and the price-change analysis send exactly one, the
    volume-deviation analysis one or two (the minute candles are fetched only
    after the hourly volume has been extracted), and [main] with the alert
    type "all" between three and four: the ticker is fetched once for each
    of the two price analyses. *)
Theorem requests_per_run (currency debug : val) (deviation s t : R) (symbol : string) :
  requests_between (get_price_deviation symbol s) 1 1 /\
  requests_between (get_price_change symbol t) 1 1 /\
  requests_between (get_volume_deviation symbol t) 1 2 /\
  requests_between (main currency "all" deviation symbol debug) 3 4.
Proof.
  split; [apply requests_get_price_deviation | ].
  split; [apply requests_get_price_change | ].
  split; [apply requests_get_volume_deviation | ].
  unfold main. cbn [String.eqb Ascii.eqb Bool.eqb].
  apply (requests_bind_total _ _ 0 0 3 4);
    [apply total_setup_logging
    | apply requests_keeps; intros w; reflexivity | intros _].
  apply (requests_bind_total _ _ 0 0 3 4);
    [apply total_log | apply requests_keeps, keeps_log, nreq_log | intros _].
  cbv zeta.
  apply (requests_bind_total _ _ 1 1 2 3);
    [apply total_get_price_deviation | apply requests_get_price_deviation | intros _].
  apply (requests_bind_total _ _ 1 1 1 2);
    [apply total_get_price_change | apply requests_get_price_change | intros _].
  apply requests_get_volume_deviation.
Qed.

(** ** The outcomes of an analysis *)

Lemma try_except_caught {A} (body : M world A) (handler : exn -> M world A)
    (w w1 : world) (e : exn) :
  body w = (Raise e, w1) -> try_except body Exception handler w = handler e w1.
Proof. intros H. unfold try_except. now rewrite H. Qed.

Lemma get_price_change_failure (symbol : string) (t : R) (e : exn) (w w1 : world) :
  get_price_change_percent symbol w = (Raise e, w1) ->
  get_price_change symbol t w =
    (Ok tt,
     logged w1 [entry LException "Failed to get price change for: %s, message: %s"
                  [AVal (VStr symbol); AExn e]]) /\
  sink_events
    (trace (logged w1 [entry LException
                         "Failed to get price change for: %s, message: %s"
                         [AVal (VStr symbol); AExn e]])) = sink_events (trace w).
Proof.
  intros Hrun. split.
  - unfold get_price_change. erewrite try_except_caught; [apply log_run | ].
    unfold bind. now rewrite Hrun.
  - rewrite sink_events_logged. simpl. rewrite app_nil_r.
    pose proof (quiet_get_price_change_percent symbol w) as Hq.
    now rewrite Hrun in Hq.
Qed.

Lemma get_volume_deviation_failure (symbol : string) (t : R) (e : exn)
    (w w1 : world) :
  get_volume_deviation_percent symbol w = (Raise e, w1) ->
  get_volume_deviation symbol t w =
    (Ok tt, logged w1 [entry LException "Failed to get volume deviation" []]) /\
  sink_events
    (trace (logged w1 [entry LException "Failed to get volume deviation" []])) =
  sink_events (trace w).
Proof.
  intros Hrun. split.
  - unfold get_volume_deviation. erewrite try_except_caught; [apply log_run | ].
    unfold bind. now rewrite Hrun.
  - rewrite sink_events_logged. simpl. rewrite app_nil_r.
    pose proof (quiet_get_volume_deviation_percent symbol w) as Hq.
    now rewrite Hrun in Hq.
Qed.

Lemma get_price_deviation_failure (symbol : string) (s : R) (e : exn) (w w1 : world) :
  (url <- get_tickerv2_url symbol ;; get_price_deviation_zscore url symbol) w =
    (Raise e, w1) ->
  get_price_deviation symbol s w =
    (Ok tt,
     logged w1 [entry LException "Failed to get price deviation for: %s, message: %s"
                  [AVal (VStr symbol); AExn e]]).
Proof.
  intros Hrun. unfold get_price_deviation.
  destruct (returns_get_tickerv2_url symbol w) as [w0 H0].
  rewrite (bind_run _ _ w w0 _ H0) in Hrun. rewrite (bind_run _ _ w w0 _ H0).
  erewrite try_except_caught; [apply log_run | ].
  unfold bind. now rewrite Hrun.
Qed.

(** X13. The price-change analysis always returns, and the sink emits at
    most one event for it. When the percentage change cannot be computed the
    failure is logged and the sink emits nothing; when it is computed as [p]
    the sink emits one event of the kind "pricechange", an alert exactly
    when [abs p] exceeds the threshold. *)
Theorem price_change_outcomes (symbol : string) (t : R) (w : world) :
  exists w',
    get_price_change symbol t w = (Ok tt, w') /\
    ((exists e w1,
        get_price_change_percent symbol w = (Raise e, w1) /\
        w' = logged w1 [entry LException
                          "Failed to get price change for: %s, message: %s"
                          [AVal (VStr symbol); AExn e]] /\
        sink_events (trace w') = sink_events (trace w)) \/
     (exists cp op p w1 c message,
        get_price_change_percent symbol w = (Ok (cp, op, p), w1) /\
        sink_events (trace w') =
          sink_events (trace w) ++ [(c, [AVal (VStr "pricechange"); AText message])] /\
        (c = Alert <-> Rabs p > t))).
Proof.
  destruct (get_price_change_percent symbol w) as [[[[cp op] p] | e] w1] eqn:Hrun.
  - destruct (get_price_change_run symbol t cp op p w w1 Hrun) as (w' & Hr & Hs).
    exists w'. split; [assumption | right].
    destruct (Rgtb (Rabs p) t) eqn:Hgt.
    + exists cp, op, p, w1, Alert, (price_change_alert_message p cp op t).
      apply Rgtb_true in Hgt. repeat split; auto.
    + exists cp, op, p, w1, Info, (price_change_info_message p cp op t).
      apply Rgtb_false in Hgt. repeat split; auto; intros; try congruence; lra.
  - destruct (get_price_change_failure symbol t e w w1 Hrun) as [Hr Hs].
    eexists. split; [exact Hr | left]. exists e, w1. auto.
Qed.

(** X14. The volume-deviation analysis always returns, and the sink emits at
    most one event for it: none when the percentage change cannot be
    computed (the failure record does not name the exception), and one of
    the kind "voldev" when it is computed as [p], an alert exactly when [p]
    exceeds the threshold. *)
Theorem volume_deviation_outcomes (symbol : string) (t : R) (w : world) :
  exists w',
    get_volume_deviation symbol t w = (Ok tt, w') /\
    ((exists e w1,
        get_volume_deviation_percent symbol w = (Raise e, w1) /\
        w' = logged w1 [entry LException "Failed to get volume deviation" []] /\
        sink_events (trace w') = sink_events (trace w)) \/
     (exists cv tv p w1 c,
        get_volume_deviation_percent symbol w = (Ok (cv, tv, p), w1) /\
        sink_events (trace w') =
          sink_events (trace w) ++
          [(c, [AVal (VStr "voldev"); AText (volume_deviation_message p cv tv t)])] /\
        (c = Alert <-> p > t))).
Proof.
  destruct (get_volume_deviation_percent symbol w) as [[[[cv tv] p] | e] w1] eqn:Hrun.
  - destruct (get_volume_deviation_run symbol t cv tv p w w1 Hrun) as (w' & Hr & Hs).
    exists w'. split; [assumption | right].
    exists cv, tv, p, w1, (if Rgtb p t then Alert else Info).
    split; [reflexivity | split; [assumption | ] ].
    destruct (Rgtb p t) eqn:Hgt.
    + apply Rgtb_true in Hgt. split; auto.
    + apply Rgtb_false in Hgt. split; intros; try congruence; lra.
  - destruct (get_volume_deviation_failure symbol t e w w1 Hrun) as [Hr Hs].
    eexists. split; [exact Hr | left]. exists e, w1. auto.
Qed.

(** X15. The price-deviation analysis always returns with exactly one last
    record, and the sink emits nothing: the record is the failure, naming
    the exception, when the z-score cannot be computed, and the verdict of
    the sigma test when it can. *)
Theorem price_deviation_outcomes (symbol : string) (s : R) (w : world) :
  exists w1 r,
    get_price_deviation symbol s w = (Ok tt, logged w1 [r]) /\
    sink_events (trace (logged w1 [r])) = sink_events (trace w) /\
    ((exists e,
        (url <- get_tickerv2_url symbol ;; get_price_deviation_zscore url symbol) w =
          (Raise e, w1) /\
        r = entry LException "Failed to get price deviation for: %s, message: %s"
              [AVal (VStr symbol); AExn e]) \/
     (exists cp z m sd,
        (url <- get_tickerv2_url symbol ;; get_price_deviation_zscore url symbol) w =
          (Ok (cp, z, m, sd), w1) /\
        (price_deviation_event r = Some Alert <-> z > s \/ z < - s) /\
        (price_deviation_event r = Some Info <-> ~ (z > s \/ z < - s)))).
Proof.
  destruct ((url <- get_tickerv2_url symbol ;; get_price_deviation_zscore url symbol) w)
    as [[[[[cp z] m] sd] | e] w1] eqn:Hrun.
  - destruct (get_price_deviation_run symbol s cp z m sd w w1 Hrun) as (r & Hr & Hev).
    exists w1, r. split; [assumption | split].
    + pose proof (quiet_get_price_deviation symbol s w) as Hq.
      now rewrite Hr in Hq.
    + right. exists cp, z, m, sd. auto.
  - pose proof (get_price_deviation_failure symbol s e w w1 Hrun) as Hr.
    eexists w1, _. split; [exact Hr | split].
    + pose proof (quiet_get_price_deviation symbol s w) as Hq.
      now rewrite Hr in Hq.
    + left. exists e. auto.
Qed.

(** ** The orchestrator *)

Lemma get_price_change_emits (symbol : string) (t : R) (w : world) :
  exists w' evs,
    get_price_change symbol t w = (Ok tt, w') /\
    sink_events (trace w') = sink_events (trace w) ++ evs /\
    (evs = [] \/
     exists c message, evs = [(c, [AVal (VStr "pricechange"); AText message])]).
Proof.
  destruct (get_price_change_percent symbol w) as [[[[cp op] p] | e] w1] eqn:Hrun.
  - destruct (get_price_change_run symbol t cp op p w w1 Hrun) as (w' & Hr & Hs).
    eexists w', _. split; [exact Hr | split; [exact Hs | right] ].
    destruct (Rgtb (Rabs p) t); eexists _, _; reflexivity.
  - destruct (get_price_change_failure symbol t e w w1 Hrun) as [Hr Hs].
    eexists _, []. split; [exact Hr | split; [ | now left] ].
    now rewrite app_nil_r.
Qed.

Lemma get_volume_deviation_emits (symbol : string) (t : R) (w : world) :
  exists w' evs,
    get_volume_deviation symbol t w = (Ok tt, w') /\
    sink_events (trace w') = sink_events (trace w) ++ evs /\
    (evs = [] \/
     exists c message, evs = [(c, [AVal (VStr "voldev"); AText message])]).
Proof.
  destruct (get_volume_deviation_percent symbol w) as [[[[cv tv] p] | e] w1] eqn:Hrun.
  - destruct (get_volume_deviation_run symbol t cv tv p w w1 Hrun) as (w' & Hr & Hs).
    eexists w', _. split; [exact Hr | split; [exact Hs | right] ].
    eexists _, _; reflexivity.
  - destruct (get_volume_deviation_failure symbol t e w w1 Hrun) as [Hr Hs].
    eexists _, []. split; [exact Hr | split; [ | now left] ].
    now rewrite app_nil_r.
Qed.

Lemma get_price_deviation_events (symbol : string) (s : R) (w : world) :
  exists w',
    get_price_deviation symbol s w = (Ok tt, w') /\
    sink_events (trace w') = sink_events (trace w).
Proof.
  destruct (total_get_price_deviation symbol s w) as ([] & w' & Hr).
  exists w'. split; [assumption | ].
  pose proof (quiet_get_price_deviation symbol s w) as Hq. now rewrite Hr in Hq.
Qed.

Lemma main_unknown (currency debug : val) (alert_type symbol : string) (deviation : R)
    (w : world) :
  alert_type <> "pricedev" -> alert_type <> "pricechange" ->
  alert_type <> "voldev" -> alert_type <> "all" ->
  main currency alert_type deviation symbol debug w =
    (Ok tt,
     logged (started currency alert_type deviation debug w)
       [entry LException
          "Invalid alert type value, must be pricedev, pricechange, voldev, or all."
          []]).
Proof.
  intros H1 H2 H3 H4. apply String.eqb_neq in H1, H2, H3, H4.
  unfold main, bind. cbn [setup_logging]. rewrite log_run, H1, H2, H3, H4.
  rewrite log_run. reflexivity.
Qed.

(** X16. An alert type other than "pricedev", "pricechange", "voldev" and
    "all" is not an error for the caller: [main] returns, having logged the
    complaint, without sending a request and without an event of the sink. *)
Theorem main_unknown_alert_type (currency debug : val) (alert_type symbol : string)
    (deviation : R) (w : world) :
  alert_type <> "pricedev" -> alert_type <> "pricechange" ->
  alert_type <> "voldev" -> alert_type <> "all" ->
  exists w',
    main currency alert_type deviation symbol debug w = (Ok tt, w') /\
    nreq w' = nreq w /\
    sink_events (trace w') = sink_events (trace w) /\
    exists before r, trace w' = before ++ [r] /\ call r = LException.
Proof.
  intros H1 H2 H3 H4. eexists. split; [now apply main_unknown | ].
  split; [reflexivity | split].
  - rewrite sink_events_logged, sink_events_started. simpl. apply app_nil_r.
  - eexists _, _. split; reflexivity.
Qed.

(** X17. Which events [main] can make the sink emit. Whatever the provider
    answers, [main] returns, and what the sink emits during the run is at
    most one event of the kind "pricechange" followed by at most one event
    of the kind "voldev", and nothing else: the first only for the alert
    types "pricechange" and "all", the second only for "voldev" and "all".
    For "pricedev" the sink emits nothing. *)
Theorem main_events (currency debug : val) (alert_type symbol : string)
    (deviation : R) (w : world) :
  exists w' evs_pc evs_vd,
    main currency alert_type deviation symbol debug w = (Ok tt, w') /\
    sink_events (trace w') = sink_events (trace w) ++ evs_pc ++ evs_vd /\
    (evs_pc = [] \/
     exists c message, evs_pc = [(c, [AVal (VStr "pricechange"); AText message])]) /\
    (evs_vd = [] \/
     exists c message, evs_vd = [(c, [AVal (VStr "voldev"); AText message])]) /\
    (evs_pc <> [] -> alert_type = "pricechange" \/ alert_type = "all") /\
    (evs_vd <> [] -> alert_type = "voldev" \/ alert_type = "all").
Proof.
  destruct (String.eqb_spec alert_type "pricedev") as [-> | N1].
  { destruct (get_price_deviation_events symbol 1.0
                (started currency "pricedev" deviation debug w)) as (w' & Hr & Hs).
    exists w', [], []. rewrite main_pricedev, !app_nil_r, Hs.
    rewrite sink_events_started. repeat split; auto; congruence. }
  destruct (String.eqb_spec alert_type "pricechange") as [-> | N2].
  { destruct (get_price_change_emits symbol (deviation * 100)
                (started currency "pricechange" deviation debug w))
      as (w' & evs & Hr & Hs & Hk).
    rewrite sink_events_started in Hs. rewrite main_pricechange.
    exists w', evs, []. rewrite app_nil_r. repeat split; auto; congruence. }
  destruct (String.eqb_spec alert_type "voldev") as [-> | N3].
  { destruct (get_volume_deviation_emits symbol (deviation * 100)
                (started currency "voldev" deviation debug w))
      as (w' & evs & Hr & Hs & Hk).
    rewrite sink_events_started in Hs. rewrite main_voldev.
    exists w', [], evs. cbn [app]. repeat split; auto; congruence. }
  destruct (String.eqb_spec alert_type "all") as [-> | N4].
  { destruct (get_price_deviation_events symbol 1.0
                (started currency "all" deviation debug w)) as (w1 & Hr1 & Hs1).
    destruct (get_price_change_emits symbol (deviation * 100) w1)
      as (w2 & evs2 & Hr2 & Hs2 & Hk2).
    destruct (get_volume_deviation_emits symbol (deviation * 100) w2)
      as (w3 & evs3 & Hr3 & Hs3 & Hk3).
    exists w3, evs2, evs3. split.
    - rewrite main_all. unfold bind. now rewrite Hr1, Hr2, Hr3.
    - split.
      + rewrite Hs3, Hs2, Hs1, sink_events_started. now rewrite app_assoc.
      + repeat split; auto. }
  exists (logged (started currency alert_type deviation debug w)
            [entry LException
               "Invalid alert type value, must be pricedev, pricechange, voldev, or all."
               []]), [], [].
  rewrite main_unknown by assumption.
  rewrite sink_events_logged, sink_events_started. simpl.
  repeat split; auto; congruence.
Qed.

(** ** When the provider cannot be reached *)

Lemma get_price_change_percent_down (symbol : string) (w : world) :
  (forall n url, http n url = None) ->
  get_price_change_percent symbol w =
    (Raise UnboundLocalError,
     logged (sent w)
       [entry LInfo "Get price change between open and current for %s."
          [AVal (VStr symbol)];
        entry LInfo "Get Gemini API tickerv2 endpoint." [];
        entry LInfo "Sending request to endpoint: %s." [AVal (VStr (ticker_url symbol))];
        entry LException "Requests exception: %s" [AExn RequestException]]).
Proof.
  intros Hdown.
  unfold get_price_change_percent, get_tickerv2_url, bind. rewrite !log_run.
  cbn [ret]. fold (ticker_url symbol).
  rewrite send_request_unreachable by apply Hdown.
  unfold logged, sent. simpl. rewrite <- !app_assoc. reflexivity.
Qed.

Lemma get_volume_deviation_percent_down (symbol : string) (w : world) :
  (forall n url, http n url = None) ->
  get_volume_deviation_percent symbol w =
    (Raise UnboundLocalError,
     logged (sent w)
       [entry LInfo "Sending request to endpoint: %s."
          [AVal (VStr (get_candles_url symbol "1hr"))];
        entry LException "Requests exception: %s" [AExn RequestException]]).
Proof.
  intros Hdown. unfold get_volume_deviation_percent, bind. cbv zeta.
  rewrite send_request_unreachable by apply Hdown. reflexivity.
Qed.

(** When neither percentage change can be computed, in any world, no run of
    [main] makes the sink emit. *)
Lemma main_no_event (symbol : string) :
  (forall w, exists e w1, get_price_change_percent symbol w = (Raise e, w1)) ->
  (forall w, exists e w1, get_volume_deviation_percent symbol w = (Raise e, w1)) ->
  forall (currency debug : val) (alert_type : string) (deviation : R) (w : world),
  exists w',
    main currency alert_type deviation symbol debug w = (Ok tt, w') /\
    sink_events (trace w') = sink_events (trace w).
Proof.
  intros Hpc Hvd currency debug alert_type deviation w.
  assert (Hpc' : forall t w0, exists w',
             get_price_change symbol t w0 = (Ok tt, w') /\
             sink_events (trace w') = sink_events (trace w0)).
  { intros t w0. destruct (Hpc w0) as (e & w1 & Hrun).
    destruct (get_price_change_failure symbol t e w0 w1 Hrun) as [Hr Hs]. eauto. }
  assert (Hvd' : forall t w0, exists w',
             get_volume_deviation symbol t w0 = (Ok tt, w') /\
             sink_events (trace w') = sink_events (trace w0)).
  { intros t w0. destruct (Hvd w0) as (e & w1 & Hrun).
    destruct (get_volume_deviation_failure symbol t e w0 w1 Hrun) as [Hr Hs]. eauto. }
  destruct (String.eqb_spec alert_type "pricedev") as [-> | N1].
  { destruct (get_price_deviation_events symbol 1.0
                (started currency "pricedev" deviation debug w)) as (w' & Hr & Hs).
    exists w'. rewrite main_pricedev, Hs, sink_events_started. auto. }
  destruct (String.eqb_spec alert_type "pricechange") as [-> | N2].
  { destruct (Hpc' (deviation * 100) (started currency "pricechange" deviation debug w))
      as (w' & Hr & Hs).
    exists w'. rewrite main_pricechange, Hs, sink_events_started. auto. }
  destruct (String.eqb_spec alert_type "voldev") as [-> | N3].
  { destruct (Hvd' (deviation * 100) (started currency "voldev" deviation debug w))
      as (w' & Hr & Hs).
    exists w'. rewrite main_voldev, Hs, sink_events_started. auto. }
  destruct (String.eqb_spec alert_type "all") as [-> | N4].
  { destruct (get_price_deviation_events symbol 1.0
                (started currency "all" deviation debug w)) as (w1 & Hr1 & Hs1).
    destruct (Hpc' (deviation * 100) w1) as (w2 & Hr2 & Hs2).
    destruct (Hvd' (deviation * 100) w2) as (w3 & Hr3 & Hs3).
    exists w3. split.
    - rewrite main_all. unfold bind. now rewrite Hr1, Hr2, Hr3.
    - now rewrite Hs3, Hs2, Hs1, sink_events_started. }
  eexists. split; [now apply main_unknown | ].
  rewrite sink_events_logged, sink_events_started. simpl. apply app_nil_r.
Qed.

(** X18. When the provider cannot be reached, every run of [main] returns
    and the sink emits nothing: the outage is only logged. The failure
    record of the analysis names [UnboundLocalError], the error of
    [send_request] at its [return], while the transport error appears only
    in the record logged by [send_request]. *)
Theorem provider_unreachable (symbol : string) (t : R) (w : world) :
  (forall n url, http n url = None) ->
  get_price_change symbol t w =
    (Ok tt,
     logged (sent w)
       [entry LInfo "Get price change between open and current for %s."
          [AVal (VStr symbol)];
        entry LInfo "Get Gemini API tickerv2 endpoint." [];
        entry LInfo "Sending request to endpoint: %s." [AVal (VStr (ticker_url symbol))];
        entry LException "Requests exception: %s" [AExn RequestException];
        entry LException "Failed to get price change for: %s, message: %s"
          [AVal (VStr symbol); AExn UnboundLocalError]]) /\
  (forall (currency debug : val) (alert_type : string) (deviation : R),
   exists w',
     main currency alert_type deviation symbol debug w = (Ok tt, w') /\
     sink_events (trace w') = sink_events (trace w)).
Proof.
  intros Hdown. split.
  - destruct (get_price_change_failure symbol t UnboundLocalError w _
                (get_price_change_percent_down symbol w Hdown)) as [Hr _].
    rewrite Hr, logged_logged. reflexivity.
  - intros. apply main_no_event.
    + intros w0. eexists _, _. now apply get_price_change_percent_down.
    + intros w0. eexists _, _. now apply get_volume_deviation_percent_down.
Qed.

(** ** From the ticker to the verdict *)

Lemma raises_fst {A} (m : M world A) (e : exn) :
  (forall w, fst (m w) = Raise e) -> raises m e.
Proof.
  intros H w. specialize (H w). destruct (m w) as [r w']. simpl in H. subst.
  now exists w'.
Qed.

Lemma raises_calculate_zscore_flat (past : list R) (cur : R) :
  (forall x y, In x past -> In y past -> x = y) ->
  raises (calculate_zscore past cur) UnboundLocalError.
Proof.
  intros Hflat. destruct (Nat.lt_ge_cases (List.length past) 2) as [Hlen | Hlen].
  - now apply raises_calculate_zscore.
  - intros w. eexists. apply calculate_zscore_zero_stdev.
    now apply stats_stdev_identical.
Qed.

Section Ticker.

Variables (symbol : string) (d : list (string * val)).

Hypothesis ticker_answer :
  forall n, http n (ticker_url symbol) =
            Some {| status_ok := true; body := Some (VDict d) |}.

Variables (currency debug : val) (deviation : R) (w : world).


(** X20. A price of zero gives no verdict. When the close or the open of
    the ticker is accepted but parses to 0 (the string "0"), the percentage
    change raises [ValueError]: [main] returns, the failure is logged and
    the sink emits nothing. *)
Theorem main_pricechange_zero_price (c o : val) (cp op : R) :
  lookup "close" d = Some c -> truthy c = true -> py_float c = Ok cp ->
  lookup "open" d = Some o -> truthy o = true -> py_float o = Ok op ->
  cp = 0 \/ op = 0 ->
  exists w1,
    main currency "pricechange" deviation symbol debug w =
      (Ok tt,
       logged w1 [entry LException "Failed to get price change for: %s, message: %s"
                    [AVal (VStr symbol); AExn ValueError]]) /\
    sink_events (trace w1) = sink_events (trace w).
Proof.
  intros Hc Htc Hcp Ho Hto Hop Hzero.
  assert (Hbody : raises (get_price_change_percent symbol) ValueError).
  { unfold get_price_change_percent.
    eapply raises_bind; [apply returns_log | ].
    eapply raises_bind; [apply returns_get_tickerv2_url | ].
    eapply raises_bind;
      [apply returns_send_request; [apply ticker_answer | reflexivity] | ].
    eapply raises_bind; [apply returns_lift | ].
    eapply raises_bind; [apply returns_log | ].
    eapply raises_bind; [eapply returns_get_current_price; eassumption | ].
    eapply raises_bind; [eapply returns_get_open_price; eassumption | ].
    apply raises_bind_first, raises_fst. intros w0.
    now apply calculate_percentage_change_zero. }
  destruct (Hbody (started currency "pricechange" deviation debug w)) as [w1 Hrun].
  destruct (get_price_change_failure symbol (deviation * 100) ValueError _ w1 Hrun)
    as [Hr Hs].
  exists w1. split; [now rewrite main_pricechange | ].
  rewrite sink_events_logged, sink_events_started in Hs. simpl in Hs.
  now rewrite app_nil_r in Hs.
Qed.

(** X21. A flat or too short history gives no verdict. When the hourly
    changes of the ticker are all the same (none or a single one included),
    the z-score cannot be computed: the price-deviation analysis returns
    after logging its failure, which names [UnboundLocalError]. *)
Theorem price_deviation_flat_history (c : val) (xs : list val) (cp s : R)
    (past : list R) :
  lookup "close" d = Some c -> truthy c = true -> py_float c = Ok cp ->
  lookup "changes" d = Some (VList xs) -> mapM py_float xs = Ok past ->
  (forall x y, In x past -> In y past -> x = y) ->
  exists w1,
    get_price_deviation symbol s w =
      (Ok tt,
       logged w1 [entry LException "Failed to get price deviation for: %s, message: %s"
                    [AVal (VStr symbol); AExn UnboundLocalError]]) /\
    sink_events (trace w1) = sink_events (trace w).
Proof.
  intros Hc Ht Hcp Hxs Hpast Hflat.
  assert (Hbody : raises (url <- get_tickerv2_url symbol ;;
                          get_price_deviation_zscore url symbol) UnboundLocalError).
  { eapply raises_bind; [apply returns_get_tickerv2_url | ].
    unfold get_price_deviation_zscore.
    eapply raises_bind; [apply returns_log | ].
    eapply raises_bind;
      [apply returns_send_request; [apply ticker_answer | reflexivity] | ].
    eapply raises_bind; [apply returns_lift | ].
    eapply raises_bind; [apply returns_log | ].
    eapply raises_bind; [eapply returns_get_current_price; eassumption | ].
    eapply raises_bind; [eapply returns_get_hourly_past_24_hours; eassumption | ].
    eapply raises_bind; [apply returns_log | ].
    apply raises_bind_first. now apply raises_calculate_zscore_flat. }
  destruct (Hbody w) as [w1 Hrun].
  pose proof (get_price_deviation_failure symbol s UnboundLocalError w w1 Hrun) as Hr.
  exists w1. split; [exact Hr | ].
  pose proof (quiet_get_price_deviation symbol s w) as Hq.
  rewrite Hr in Hq. cbn [snd] in Hq. rewrite sink_events_logged in Hq.
  simpl in Hq. now rewrite app_nil_r in Hq.
Qed.

End Ticker.


(** ** The log level *)

Lemma loglevel_log (c : logcall) (fm : string) (a : list logarg) (w : world) :
  loglevel (snd (log c fm a w)) = loglevel w.
Proof. reflexivity. Qed.

Lemma loglevel_requests_get (url : string) (w : world) :
  loglevel (snd (requests_get url w)) = loglevel w.
Proof. unfold requests_get. destruct (http (nreq w) url); reflexivity. Qed.

Lemma loglevel_main (currency debug : val) (alert_type symbol : string)
    (deviation : R) (w : world) :
  loglevel (snd (main currency alert_type deviation symbol debug w)) =
    if truthy debug then DEBUG else INFO.
Proof.
  unfold main.
  rewrite (bind_run _ _ w (snd (setup_logging debug w)) tt) by reflexivity.
  rewrite (bind_run _ _ _ _ tt (log_run _ _ _ _)).
  cbv zeta.
  assert (Hk : forall m : M world unit,
             keeps loglevel m ->
             loglevel (snd (m (logged (snd (setup_logging debug w))
                                 [entry LDebug "Currency: %s, type: %s, deviation: %s"
                                    [AVal currency; AVal (VStr alert_type);
                                     AVal (VNum deviation)]]))) =
             if truthy debug then DEBUG else INFO)
    by (intros m Hm; now rewrite Hm).
  apply Hk.
  pose proof (keeps_get_price_deviation loglevel loglevel_log loglevel_requests_get)
    as Hpd.
  pose proof (keeps_get_price_change loglevel loglevel_log loglevel_requests_get)
    as Hpc.
  pose proof (keeps_get_volume_deviation loglevel loglevel_log loglevel_requests_get)
    as Hvd.
  repeat match goal with
         | |- keeps _ (if ?b then _ else _) => destruct b
         end; auto.
  - apply keeps_bind; [apply Hpd | intros _].
    apply keeps_bind; [apply Hpc | intros _]. apply Hvd.
  - apply keeps_log, loglevel_log.
Qed.

Lemma filter_all {A} (p : A -> bool) (l : list A) :
  (forall x, In x l -> p x = true) -> filter p l = l.
Proof.
  induction l as [ | a l IH]; intros H; simpl; [reflexivity | ].
  rewrite (H a) by (simpl; auto). f_equal. apply IH. intros x Hx. apply H.
  simpl. auto.
Qed.

(** X23. The option [--debug] changes what is shown, never whether a
    verdict is shown. After any run of [main] the level is [DEBUG] or
    [INFO]; every event of the sink reaches the output under both; without
    [--debug] no debug record (the bodies of the answers among them) reaches
    the output, and with it every record does. *)
Theorem verdicts_reach_output (currency debug : val) (alert_type symbol : string)
    (deviation : R) (w : world) :
  let w' := snd (main currency alert_type deviation symbol debug w) in
  loglevel w' = (if truthy debug then DEBUG else INFO) /\
  sink_events (emitted w') = sink_events (trace w') /\
  (truthy debug = false -> Forall (fun r => call r <> LDebug) (emitted w')) /\
  (truthy debug = true -> emitted w' = trace w').
Proof.
  intros w'.
  assert (Hlevel : loglevel w' = if truthy debug then DEBUG else INFO)
    by apply loglevel_main.
  split; [exact Hlevel | split; [ | split] ].
  - apply sink_events_emitted. rewrite Hlevel. unfold DEBUG, INFO.
    destruct (truthy debug); lia.
  - intros Hd. rewrite Hd in Hlevel. apply Forall_forall. intros r Hr.
    unfold emitted in Hr. apply filter_In in Hr. destruct Hr as [_ Hr].
    rewrite Hlevel in Hr. unfold INFO in Hr. revert Hr.
    destruct (call r); cbn; intros Hr; congruence.
  - intros Hd. rewrite Hd in Hlevel. unfold emitted. apply filter_all.
    intros r _. rewrite Hlevel. unfold DEBUG. destruct (call r); reflexivity.
Qed.

(** ** The addresses *)

Lemma append_inj_l (a b c : string) : (a ++ b)%string = (a ++ c)%string -> b = c.
Proof.
  induction a as [ | x a IH]; simpl; intros H; [assumption | ].
  injection H as H. now apply IH.
Qed.

(** X24. The addresses do not collide: the ticker of a symbol is never at
    the address of a candle series, two symbols have their tickers at two
    addresses, and the hourly and the minute candles of a symbol are at two
    addresses. *)
Theorem addresses_distinct (symbol symbol' time_range : string) (w w' : world)
    (url : string) :
  fst (get_tickerv2_url symbol w) = Ok url ->
  url <> get_candles_url symbol' time_range /\
  (fst (get_tickerv2_url symbol' w') = Ok url -> symbol = symbol') /\
  get_candles_url symbol "1hr" <> get_candles_url symbol "1m".
Proof.
  intros H. cbn in H. injection H as <-.
  split; [ | split].
  - unfold get_candles_url. cbn. discriminate.
  - intros H. cbn in H. injection H as H. symmetry. exact H.
  - unfold get_candles_url, GEMINI_API_BASE_URL, API_VERSION. intros H.
    repeat (apply append_inj_l in H). discriminate.
Qed.

(** ** The status of the answer *)


End Program.

(** * The sample environment *)

Lemma scenario_changes_parsed :
  mapM (py_float float_of_digits) (map VStr ["100"; "101"; "99"; "102"; "98"]) =
  Ok scenario_changes.
Proof. reflexivity. Qed.

Lemma scenario_mean : sample_mean_spec scenario_changes = 100.
Proof. unfold sample_mean_spec, scenario_changes. simpl. lra. Qed.

Lemma scenario_variance :
  Rsum (map (fun x => Rsqr (x - sample_mean_spec scenario_changes)) scenario_changes)
  / (INR (List.length scenario_changes) - 1) = 5 / 2.
Proof.
  rewrite scenario_mean. unfold scenario_changes, Rsqr. simpl. lra.
Qed.

Lemma scenario_stdev_pos : 0 < bessel_stdev_spec scenario_changes.
Proof.
  unfold bessel_stdev_spec. rewrite scenario_variance. apply sqrt_lt_R0. lra.
Qed.

Lemma scenario_stdev_small : bessel_stdev_spec scenario_changes < 5.
Proof.
  unfold bessel_stdev_spec. rewrite scenario_variance.
  replace 5 with (sqrt (5 * 5)) at 2 by (apply sqrt_square; lra).
  apply sqrt_lt_1_alt. lra.
Qed.

(** In the scenario the current price is more than one standard deviation
    above the mean. *)
Lemma scenario_zscore :
  (105 - sample_mean_spec scenario_changes) / bessel_stdev_spec scenario_changes > 1.
Proof.
  rewrite scenario_mean.
  pose proof scenario_stdev_pos as Hpos. pose proof scenario_stdev_small as Hsmall.
  apply Rlt_gt. apply Rmult_lt_reg_r with (bessel_stdev_spec scenario_changes);
    [assumption | ].
  unfold Rdiv. rewrite Rmult_assoc, Rinv_l by lra. lra.
Qed.

(** The end-to-end scenario of the specification: close 105, open 100 and a
    deviation of 0.04 give a change of 5 percent against a threshold of 4,
    and the sink emits an alert. *)
Lemma price_change_scenario :
  let p := ((105 - 100) / 100) * 100 in
  let t := 0.04 * 100 in
  p = 5.0 /\ t = 4.0 /\
  exists w',
    main float_of_digits (http_ticker scenario_ticker)
      VNone "pricechange" 0.04 "btcusd" VNone world0 = (Ok tt, w') /\
    sink_events (trace w') =
      [(Alert, [AVal (VStr "pricechange");
                AText (price_change_alert_message p 105 100 t)])].
Proof.
  intros p t. split; [unfold p; lra | split; [unfold t; lra | ] ].
  destruct (price_change_end_to_end float_of_digits (http_ticker scenario_ticker)
              "btcusd" _ (fun n => eq_refl) VNone VNone 0.04 world0
              (VStr "105") (VStr "100") 105 100)
    as (w' & Hmain & Hs); try reflexivity; try lra.
  exists w'. split; [exact Hmain | ].
  rewrite Hs. fold p t.
  assert (Hgt : Rgtb (Rabs p) t = true).
  { apply Rgtb_true. unfold p, t. rewrite Rabs_pos_eq; lra. }
  rewrite Hgt. reflexivity.
Qed.

(** C1 on the code. The magnitude test of the price-change analysis is
    strict: with close 150, open 100 and a deviation of 0.5 the change is 50
    percent, which equals the threshold, and the sink emits the
    informational event whose message says "less than". *)
Theorem price_change_at_threshold :
  let p := ((150 - 100) / 100) * 100 in
  let t := 0.5 * 100 in
  Rabs p >= t /\
  exists w',
    main float_of_digits (http_ticker ticker_150)
      VNone "pricechange" 0.5 "btcusd" VNone world0 = (Ok tt, w') /\
    sink_events (trace w') =
      [(Info, [AVal (VStr "pricechange");
               AText (price_change_info_message p 150 100 t)])].
Proof.
  intros p t.
  assert (Hp : Rabs p = t) by (unfold p, t; rewrite Rabs_pos_eq; lra).
  split; [rewrite Hp; lra | ].
  destruct (price_change_end_to_end float_of_digits (http_ticker ticker_150)
              "btcusd" _ (fun n => eq_refl) VNone VNone 0.5 world0
              (VStr "150") (VStr "100") 150 100)
    as (w' & Hmain & Hs); try reflexivity; try lra.
  exists w'. split; [exact Hmain | ].
  rewrite Hs. fold p t.
  assert (Hgt : Rgtb (Rabs p) t = false) by (apply Rgtb_false; rewrite Hp; lra).
  rewrite Hgt. reflexivity.
Qed.

Lemma price_deviation_sigma_witness :
  exists w1 r,
    get_price_deviation float_of_digits (http_ticker scenario_ticker) "btcusd" 1 world0 =
      (Ok tt, logged w1 [r]) /\
    price_deviation_event r = Some Alert.
Proof.
  destruct (returns_get_price_deviation_zscore float_of_digits
              (http_ticker scenario_ticker) "btcusd" _ (fun n => eq_refl)
              (VStr "105") _ 105 scenario_changes
              eq_refl eq_refl eq_refl eq_refl scenario_changes_parsed
              (le_S _ _ (le_S _ _ (le_S _ _ (le_n 2))))
              (Rgt_not_eq _ _ scenario_stdev_pos) world0) as [w1 Hrun].
  destruct (proj1 (proj2 (price_deviation_sigma float_of_digits
                            (http_ticker scenario_ticker)
                            "btcusd" 1 105 _ _ _ world0 w1)) Hrun)
    as (r & Hmain & Ha & _).
  exists w1, r. split; [exact Hmain | ].
  apply Ha. left. exact scenario_zscore.
Defined.

(** C7 on the code. In the scenario the price-deviation analysis computes a
    z-score above 1.0 and logs its verdict, an alert, as its last record; the
    sink has emitted nothing: the analysis never calls [send_alert] nor
    [send_info]. *)
Theorem price_deviation_bypasses_sink :
  exists w1 r,
    main float_of_digits (http_ticker scenario_ticker)
      VNone "pricedev" 0.04 "btcusd" VNone world0 = (Ok tt, logged w1 [r]) /\
    price_deviation_event r = Some Alert /\
    sink_events (trace (logged w1 [r])) = [].
Proof.
  destruct (price_deviation_end_to_end float_of_digits (http_ticker scenario_ticker)
              "btcusd" _ (fun n => eq_refl) VNone VNone 0.04 world0
              (VStr "105") _ 105 scenario_changes
              eq_refl eq_refl eq_refl eq_refl scenario_changes_parsed)
    as (w1 & r & _ & Hmain & Ha & _ & Hs).
  - simpl. lia.
  - apply Rgt_not_eq, scenario_stdev_pos.
  - exists w1, r. split; [exact Hmain | split].
    + apply Ha. left. exact scenario_zscore.
    + exact Hs.
Qed.

(** C6 as stated fails: one hourly candle of volume 100 and a last minute of
    volume 50 give a change of -50 percent; against the threshold -100 (a
    deviation of -1) this negative change is an alert. *)
Lemma volume_drop_alerts :
  let tv := Rsum (map snd (firstn 24 hourly_100)) in
  let p := ((50 - tv) / tv) * 100 in
  let t := -1 * 100 in
  p < 0 /\
  exists w',
    main float_of_digits
      (http_candles "btcusd" (VList (map candle_row hourly_100))
         (VList (map candle_row [minute_50])))
      VNone "voldev" (-1) "btcusd" VNone world0 = (Ok tt, w') /\
    sink_events (trace w') =
      [(Alert, [AVal (VStr "voldev");
                AText (volume_deviation_message p (VNum 50) tv t)])].
Proof.
  intros tv p t.
  assert (Htv : tv = 100) by (unfold tv, hourly_100; simpl; lra).
  assert (Hp : p = -50) by (unfold p; rewrite Htv; lra).
  split; [lra | ].
  destruct (volume_deviation_end_to_end float_of_digits
              (http_candles "btcusd" (VList (map candle_row hourly_100))
                 (VList (map candle_row [minute_50])))
              "btcusd" VNone VNone (-1) world0 hourly_100 minute_50 []
              (fun n => eq_refl) (fun n => eq_refl))
    as (w1 & w' & _ & Hmain & Hs).
  - discriminate.
  - simpl. lra.
  - fold tv. lra.
  - exists w'. split; [exact Hmain | ].
    rewrite Hs. fold tv. cbn [snd minute_50]. fold p t.
    assert (Hgt : Rgtb p t = true) by (apply Rgtb_true; unfold t; lra).
    rewrite Hgt. reflexivity.
Qed.

Lemma volume_deviation_directional_witness :
  exists (w' : world) (c : Classification),
    get_volume_deviation
      (http_candles "btcusd" (VList (map candle_row hourly_100))
         (VList (map candle_row [minute_50])))
      "btcusd" 10 world0 = (Ok tt, w') /\
    c = Info.
Proof.
  assert (Htv : Rsum (map snd (firstn 24 hourly_100)) = 100)
    by (unfold hourly_100; simpl; lra).
  destruct (returns_get_volume_deviation_percent
              (http_candles "btcusd" (VList (map candle_row hourly_100))
                 (VList (map candle_row [minute_50])))
              "btcusd" hourly_100 minute_50 []
              (fun n => eq_refl) (fun n => eq_refl)) with (w := world0) as [w1 Hrun].
  - discriminate.
  - simpl. lra.
  - rewrite Htv. lra.
  - destruct (volume_deviation_directional _ "btcusd" 10 _ _ _ world0 w1 Hrun)
      as (w' & c & Hmain & _ & _ & _ & Hneg).
    exists w', c. split; [exact Hmain | ].
    apply Hneg; [ | lra]. rewrite Htv. cbn [snd minute_50]. lra.
Defined.

(** An error inside one analysis does not stop the others: with a single
    hourly change in the ticker the price-deviation analysis ends in its
    [except] clause, and the price-change and the volume-deviation analysis
    still hand their verdicts to the sink. *)
Lemma all_kinds_run_after_a_failure :
  let http :=
    http_exchange "btcusd" short_ticker (VList (map candle_row hourly_100))
      (VList (map candle_row [minute_50])) in
  let t := 0.04 * 100 in
  let p := ((105 - 100) / 100) * 100 in
  let tv := Rsum (map snd (firstn 24 hourly_100)) in
  let q := ((50 - tv) / tv) * 100 in
  exists w0 w',
    get_price_deviation float_of_digits http "btcusd" 1.0
      (started VNone "all" 0.04 VNone world0) =
      (Ok tt,
       logged w0 [entry LException "Failed to get price deviation for: %s, message: %s"
                    [AVal (VStr "btcusd"); AExn UnboundLocalError]]) /\
    main float_of_digits http VNone "all" 0.04 "btcusd" VNone world0 = (Ok tt, w') /\
    sink_events (trace w') =
      [(Alert, [AVal (VStr "pricechange");
                AText (price_change_alert_message p 105 100 t)]);
       (Info, [AVal (VStr "voldev");
               AText (volume_deviation_message q (VNum 50) tv t)])].
Proof.
  intros http t p tv q.
  assert (Htv : tv = 100) by (unfold tv, hourly_100; simpl; lra).
  destruct (get_price_deviation_short_history float_of_digits http "btcusd" _
              (VStr "105") _ 105 [100] 1.0 (started VNone "all" 0.04 VNone world0)
              (fun n => eq_refl) eq_refl eq_refl eq_refl eq_refl eq_refl (le_n 2))
    as [w0 H1].
  pose proof (quiet_get_price_deviation float_of_digits http "btcusd" 1.0
                (started VNone "all" 0.04 VNone world0)) as Hq1.
  rewrite H1 in Hq1. cbn [snd] in Hq1. rewrite sink_events_started in Hq1.
  destruct (returns_get_price_change_percent float_of_digits http "btcusd" _
              (fun n => eq_refl) (VStr "105") (VStr "100") 105 100
              eq_refl eq_refl eq_refl eq_refl eq_refl eq_refl)
    with (w := logged w0 [entry LException
                            "Failed to get price deviation for: %s, message: %s"
                            [AVal (VStr "btcusd"); AExn UnboundLocalError]])
    as [w1 Hrun2]; try lra.
  destruct (get_price_change_run float_of_digits http "btcusd" t 105 100 p _ w1 Hrun2)
    as (w2 & H2 & Hs2).
  destruct (returns_get_volume_deviation_percent http "btcusd" hourly_100 minute_50 []
              (fun n => eq_refl) (fun n => eq_refl)) with (w := w2) as [w3 Hrun3].
  { discriminate. }
  { simpl. lra. }
  { fold tv. lra. }
  destruct (get_volume_deviation_run http "btcusd" t _ _ _ w2 w3 Hrun3)
    as (w' & H3 & Hs3).
  exists w0, w'. split; [exact H1 | split].
  - rewrite main_all. unfold bind. fold http t. now rewrite H1, H2, H3.
  - rewrite Hs3, Hs2, Hq1. fold tv. cbn [snd minute_50 app sink_events flat_map trace
                                        world0]. fold q.
    assert (Hgt : Rgtb (Rabs p) t = true).
    { apply Rgtb_true. unfold p, t. rewrite Rabs_pos_eq; lra. }
    assert (Hle : Rgtb q t = false).
    { apply Rgtb_false. unfold q, t. rewrite Htv. lra. }
    rewrite Hgt, Hle. reflexivity.
Qed.

(** * Instances of the further properties *)

Lemma send_request_transport_failure_witness :
  send_request http_down "https://api.gemini.com/v2/ticker/btcusd" world0 =
    (Raise UnboundLocalError,
     logged (sent world0)
       [entry LInfo "Sending request to endpoint: %s."
          [AVal (VStr "https://api.gemini.com/v2/ticker/btcusd")];
        entry LException "Requests exception: %s" [AExn RequestException]]).
Proof.
  apply (send_request_transport_failure http_down
           "https://api.gemini.com/v2/ticker/btcusd" world0).
  reflexivity.
Defined.

Lemma send_request_returns_any_response_witness :
  fst (send_request (http_error VNone) "https://api.gemini.com/v2/ticker/btcusd"
         world0) =
  Ok {| status_ok := false; body := Some VNone |}.
Proof.
  rewrite (send_request_returns_any_response (http_error VNone)
             "https://api.gemini.com/v2/ticker/btcusd"
             {| status_ok := false; body := Some VNone |} world0 eq_refl).
  reflexivity.
Defined.

Lemma price_fields_validation_witness :
  fst (get_current_price float_of_digits
         (VDict [("close", VNum 0); ("open", VStr "0")]) world0) = Raise ValueError /\
  fst (get_open_price float_of_digits
         (VDict [("close", VNum 0); ("open", VStr "0")]) world0) = Ok 0.
Proof.
  split.
  - apply (proj1 (price_fields_validation float_of_digits
                    [("close", VNum 0); ("open", VStr "0")] world0
                    (get_current_price float_of_digits) "close"
                    (or_introl (conj eq_refl eq_refl)))).
    right. right. left. reflexivity.
  - apply (proj2 (proj2 (price_fields_validation float_of_digits
                           [("close", VNum 0); ("open", VStr "0")] world0
                           (get_open_price float_of_digits) "open"
                           (or_intror (conj eq_refl eq_refl)))) "0").
    + reflexivity.
    + discriminate.
Defined.

Lemma get_hourly_past_24_hours_elementwise_witness :
  fst (get_hourly_past_24_hours float_of_digits (VDict scenario_items) world0) =
  Ok scenario_changes.
Proof.
  apply (proj1 (proj2 (get_hourly_past_24_hours_elementwise float_of_digits
                         scenario_items
                         (map VStr ["100"; "101"; "99"; "102"; "98"]) world0
                         eq_refl))).
  apply mapM_Forall2. exact scenario_changes_parsed.
Defined.

Lemma get_hourly_past_24_hours_missing_witness :
  get_hourly_past_24_hours float_of_digits (VDict [("close", VStr "105")]) world0 =
  (Raise TypeError, world0).
Proof.
  apply (get_hourly_past_24_hours_missing float_of_digits [("close", VStr "105")]
           world0).
  reflexivity.
Defined.

Lemma get_total_volume_window_witness :
  fst (get_total_volume_past_24_hours
         (VList (map candle_row (repeat ([], 1) 24) ++ [VNone])) world0) =
    Ok (Rsum (map snd (repeat (([] : list val), 1) 24))) /\
  fst (get_total_volume_past_24_hours (VList (map candle_row [] ++ [VList []])) world0) =
    Raise IndexError /\
  fst (get_total_volume_past_24_hours
         (VList (map candle_row [] ++ VList ([] ++ [VStr "7"]) :: map candle_row []))
         world0) = Raise TypeError.
Proof.
  split; [ | split].
  - apply (proj1 (get_total_volume_window (repeat ([], 1) 24) world0)).
    reflexivity.
  - apply (proj1 (proj2 (get_total_volume_window [] world0))).
    simpl. lia.
  - apply (proj2 (proj2 (get_total_volume_window [] world0))).
    simpl. lia.
Defined.

Lemma sink_validation_witness :
  (exists w',
     send_alert "pricechange" [Lit "x"] world0 = (Ok tt, w') /\
     sink_events (trace w') =
       sink_events (trace world0) ++
       [(Alert, [AVal (VStr "pricechange"); AText [Lit "x"]])]) /\
  fst (send_alert "" [Lit "x"] world0) = Raise ValueError.
Proof.
  split.
  - apply (proj1 (sink_validation "pricechange" [Lit "x"] world0)).
    + discriminate.
    + reflexivity.
  - apply (proj2 (sink_validation "" [Lit "x"] world0)).
    left. reflexivity.
Defined.

Lemma calculate_percentage_change_sign_witness :
  0 < ((110 - 100) / 100) * 100 <-> 100 < 110.
Proof.
  apply (proj1 (proj2 (calculate_percentage_change_sign 110 100
                         (((110 - 100) / 100) * 100) world0
                         (f_equal fst (calculate_percentage_change_nonzero
                                         110 100 world0
                                         (Rgt_not_eq _ _ (IZR_lt 0 110 eq_refl))
                                         (Rgt_not_eq _ _ (IZR_lt 0 100 eq_refl))))))).
  apply (IZR_lt 0 100). reflexivity.
Defined.

Lemma calculate_percentage_change_operands_witness :
  fst (calculate_percentage_change VNone (VNum 100) world0) = Raise ValueError /\
  fst (calculate_percentage_change (VStr "50") (VNum 100) world0) = Raise TypeError /\
  fst (calculate_percentage_change (VBool true) (VNum 100) world0) =
    Ok (((1 - 100) / 100) * 100).
Proof.
  split; [ | split].
  - apply (proj1 (calculate_percentage_change_operands VNone (VNum 100) 100 "50"
                    world0)).
    left. reflexivity.
  - apply (proj1 (proj2 (calculate_percentage_change_operands VNone (VNum 100) 100
                           "50" world0))).
    + discriminate.
    + lra.
  - apply (proj2 (proj2 (calculate_percentage_change_operands VNone (VNum 100) 100
                           "50" world0))).
    lra.
Defined.

Lemma calculate_zscore_sign_witness : 0 < bessel_stdev_spec [1; 2; 3; 4; 5].
Proof.
  apply (calculate_zscore_sign [1; 2; 3; 4; 5] 3
           ((3 - sample_mean_spec [1; 2; 3; 4; 5]) / bessel_stdev_spec [1; 2; 3; 4; 5])
           (sample_mean_spec [1; 2; 3; 4; 5]) (bessel_stdev_spec [1; 2; 3; 4; 5])
           world0).
  rewrite (calculate_zscore_ok [1; 2; 3; 4; 5] 3
             (bessel_stdev_spec [1; 2; 3; 4; 5]) (sample_mean_spec [1; 2; 3; 4; 5])).
  - reflexivity.
  - apply stats_stdev_spec. simpl. lia.
  - reflexivity.
  - apply bessel_stdev_12345.
Defined.

Lemma main_unknown_alert_type_witness :
  exists w',
    main float_of_digits http_down VNone "volume" 0.04 "btcusd" VNone world0 =
      (Ok tt, w') /\
    nreq w' = nreq world0.
Proof.
  destruct (main_unknown_alert_type float_of_digits http_down VNone VNone "volume"
              "btcusd" 0.04 world0) as (w' & Hmain & Hreq & _);
    try discriminate.
  exists w'. split; assumption.
Defined.

Lemma main_events_witness :
  exists w',
    main float_of_digits (http_ticker scenario_ticker) VNone "pricedev" 0.04 "btcusd"
      VNone world0 = (Ok tt, w') /\
    sink_events (trace w') = sink_events (trace world0).
Proof.
  destruct (main_events float_of_digits (http_ticker scenario_ticker) VNone VNone
              "pricedev" "btcusd" 0.04 world0)
    as (w' & evs_pc & evs_vd & Hmain & Hs & Hpc & Hvd & Hopc & Hovd).
  exists w'. split; [exact Hmain | ].
  destruct evs_pc as [ | e1 l1].
  - destruct evs_vd as [ | e2 l2].
    + rewrite Hs. reflexivity.
    + destruct Hovd as [H | H]; discriminate.
  - destruct Hopc as [H | H]; discriminate.
Defined.

Lemma provider_unreachable_witness :
  exists w',
    main float_of_digits http_down VNone "all" 0.04 "btcusd" VNone world0 =
      (Ok tt, w') /\
    sink_events (trace w') = sink_events (trace world0).
Proof.
  apply (proj2 (provider_unreachable float_of_digits http_down "btcusd" 4 world0
                  (fun n url => eq_refl))).
Defined.


Lemma main_pricechange_zero_price_witness :
  exists w1,
    main float_of_digits (http_ticker zero_ticker) VNone "pricechange" 0.04 "btcusd"
      VNone world0 =
      (Ok tt,
       logged w1 [entry LException "Failed to get price change for: %s, message: %s"
                    [AVal (VStr "btcusd"); AExn ValueError]]) /\
    sink_events (trace w1) = sink_events (trace world0).
Proof.
  apply (main_pricechange_zero_price float_of_digits (http_ticker zero_ticker)
           "btcusd" _ (fun n => eq_refl) VNone VNone 0.04 world0
           (VStr "0") (VStr "100") 0 100);
    try reflexivity.
  left. reflexivity.
Defined.

Lemma price_deviation_flat_history_witness :
  exists w1,
    get_price_deviation float_of_digits (http_ticker short_ticker) "btcusd" 1 world0 =
      (Ok tt,
       logged w1 [entry LException "Failed to get price deviation for: %s, message: %s"
                    [AVal (VStr "btcusd"); AExn UnboundLocalError]]) /\
    sink_events (trace w1) = sink_events (trace world0).
Proof.
  apply (price_deviation_flat_history float_of_digits (http_ticker short_ticker)
           "btcusd" _ (fun n => eq_refl) world0 (VStr "105") [VStr "100"] 105 1
           [100]);
    try reflexivity.
  intros x y [<- | []] [<- | []]. reflexivity.
Defined.


Lemma verdicts_reach_output_witness :
  Forall (fun r => call r <> LDebug)
    (emitted (snd (main float_of_digits (http_ticker scenario_ticker) VNone
                     "pricechange" 0.04 "btcusd" VNone world0))).
Proof.
  apply (proj1 (proj2 (proj2 (verdicts_reach_output float_of_digits
                                (http_ticker scenario_ticker) VNone VNone
                                "pricechange" "btcusd" 0.04 world0)))).
  reflexivity.
Defined.

Lemma addresses_distinct_witness :
  "https://api.gemini.com/v2/ticker/btcusd" <> get_candles_url "btcusd" "1hr".
Proof.
  apply (proj1 (addresses_distinct "btcusd" "btcusd" "1hr" world0 world0
                  "https://api.gemini.com/v2/ticker/btcusd" eq_refl)).
Defined.

